(** * flocker-go: the control-service client

    A shallow embedding of [client.go] (both revisions of the client that the
    repository carries: [Client] and [flockerClient]) and of [util.go]
    ([datasetIDFromName]), together with the properties of the
    volume-provisioning protocol.

    Conventions of the embedding.

    - A Go result pair [(v, err)] is a Rocq pair whose second component is an
      [option error]; [None] is Go's [nil] error.
    - The embedded [*http.Client] is the environment [env]: the i-th call of
      [request] in a run answers with [transport env i], and the i-th [select]
      of a run receives from the channel [timers env i].
    - A response body is represented by what [json.NewDecoder(body).Decode]
      yields on it at each of the four target types the client decodes into.
    - Every call of [request] is logged in the [world], so that statements
      about which requests a function issues can be made. *)

From Stdlib Require Import ZArith List String Ascii Bool Lia DecimalString.
From Stdlib.Strings Require Import Byte.
Import ListNotations.

Open Scope string_scope.
Open Scope Z_scope.

(** ** Constants and errors *)

(** [json.Number] is a string type. *)
Definition Number := string.

Definition defaultVolumeSize : Number := "107374182400".

(** Timer settings, in nanoseconds as [time.Duration] has them. *)
Definition Second : Z := 1000000000.
Definition Minute : Z := 60 * Second.
Definition timeoutWaitingForVolume : Z := 2 * Minute.
Definition tickerWaitingForVolume : Z := 5 * Second.

Definition StatusConflict : Z := 409.

(** Errors made outside the package (by [net/http], [encoding/json] or the
    body reader).  None of them can be identical to one of the package's own
    error values, which are unexported variables. *)
Inductive libError : Type :=
| LibError (msg : string).

(** The package's error values, the errors built by [fmt.Errorf], and the
    foreign ones.  Go compares errors by identity; the package-level values
    are pairwise distinct, which the constructors render. *)
Inductive error : Type :=
| errStateNotFound
| errConfigurationNotFound
| errFlockerControlServiceHost
| errFlockerControlServicePort
| errVolumeAlreadyExists
| errVolumeDoesNotExist
| errUpdatingDataset
| Errorf (msg : string)
| foreign (e : libError).

Definition error_message (e : error) : string :=
  match e with
  | errStateNotFound => "State not found by Dataset ID"
  | errConfigurationNotFound => "Configuration not found by Name"
  | errFlockerControlServiceHost =>
      "The volume config must have a key CONTROL_SERVICE_HOST defined in the OtherAttributes field"
  | errFlockerControlServicePort =>
      "The volume config must have a key CONTROL_SERVICE_PORT defined in the OtherAttributes field"
  | errVolumeAlreadyExists => "The volume already exists"
  | errVolumeDoesNotExist => "The volume does not exist"
  | errUpdatingDataset => "It was impossible to update the dataset"
  | Errorf msg => msg
  | foreign (LibError msg) => msg
  end.

(** [fmt.Sprintf("%d", n)] *)
Definition sprint_d (n : Z) : string := NilZero.string_of_int (Z.to_int n).

(** ** [strconv.Atoi], as the test of the size constant uses it *)

Definition digit_of_ascii (a : ascii) : option Z :=
  let n := Z.of_N (N_of_ascii a) in
  if (48 <=? n) && (n <=? 57) then Some (n - 48) else None.

Fixpoint parse_digits (acc : Z) (s : string) : option Z :=
  match s with
  | EmptyString => Some acc
  | String a s' =>
      match digit_of_ascii a with
      | Some d => parse_digits (10 * acc + d) s'
      | None => None
      end
  end.

Definition maxInt : Z := 2 ^ 63 - 1.
Definition minInt : Z := - 2 ^ 63.

(** An optional sign, then one decimal digit or more; [None] stands for the
    syntax and range errors. *)
Definition Atoi (s : string) : option Z :=
  let signed (neg : bool) (ds : string) :=
    match ds with
    | EmptyString => None
    | _ =>
        match parse_digits 0 ds with
        | Some n =>
            let v := if neg then - n else n in
            if (minInt <=? v) && (v <=? maxInt) then Some v else None
        | None => None
        end
    end in
  match s with
  | String "+"%char ds => signed false ds
  | String "-"%char ds => signed true ds
  | _ => signed false s
  end.

(** ** Payloads *)

Record metadataPayload : Type := {
  Name : string
}.

Record configurationPayload : Type := {
  Primary : string;
  DatasetID : string;
  MaximumSize : Number;
  Metadata : metadataPayload
}.

Record datasetState : Type := {
  ds_Path : string;
  ds_DatasetID : string;
  ds_Primary : string;
  ds_MaximumSize : Number
}.

(** [datasetStatePayload] embeds a pointer to a [datasetState]; the pointer is
    nil ([None]) for an element that sets none of its fields. *)
Record datasetStatePayload : Type := {
  embedded : option datasetState
}.

Record nodeStatePayload : Type := {
  UUID : string;
  Host : string
}.

(** ** Requests, responses and the environment *)

(** The value handed to [json.Marshal]. [UpdateDatasetPrimary] of [Client]
    posts an anonymous struct with the one field [Primary]. *)
Inductive payload : Type :=
| configurationBody (p : configurationPayload)
| primaryBody (primary : string).

(** What [request] builds: the method, the URL, and the payload, which is
    marshalled for a POST only. *)
Record Request : Type := {
  Method : string;
  URL : string;
  Sent : option payload
}.

(** A response body, given by the outcome of decoding it. *)
Record Body : Type := {
  decodeNodeStates : libError + list nodeStatePayload;
  decodeDatasetStates : libError + list datasetStatePayload;
  decodeConfigurations : libError + list configurationPayload;
  decodeConfiguration : libError + configurationPayload
}.

Record Response : Type := {
  StatusCode : Z;
  body : Body
}.

Inductive timerEvent : Type :=
| timeoutChan   (* the one-shot timer of [timeoutWaitingForVolume] *)
| tickChan.     (* the ticker of [tickerWaitingForVolume] *)

(** [transport i] is what the i-th [request] of the run returns: an error of
    [json.Marshal], [http.NewRequest] or [Do], or the response.
    [timers i] is the channel the i-th [select] of the run receives from. *)
Record env : Type := {
  transport : nat -> libError + Response;
  timers : nat -> timerEvent
}.

(** The observable state of a run: the requests made so far, oldest first,
    and the number of [select]s executed. *)
Record world : Type := {
  calls : list Request;
  selects : nat
}.

Definition start : world := {| calls := []; selects := 0 |}.

(** The index of the response that the next request of a run gets. *)
Definition next (w : world) : nat := List.length (calls w).

(** ** The monad of client code *)

Inductive outcome (A : Type) : Type :=
| Done (a : A)      (* the function returned *)
| Panicked          (* nil pointer dereference *)
| Starved.          (* the loop budget ran out before the function returned *)

Arguments Done {A} a.
Arguments Panicked {A}.
Arguments Starved {A}.

Definition M (A : Type) : Type := world -> outcome A * world.

Definition ret {A} (a : A) : M A := fun w => (Done a, w).

Definition bind {A B} (m : M A) (k : A -> M B) : M B :=
  fun w =>
    match m w with
    | (Done a, w') => k a w'
    | (Panicked, w') => (Panicked, w')
    | (Starved, w') => (Starved, w')
    end.

Definition panic {A} : M A := fun w => (Panicked, w).
Definition starve {A} : M A := fun w => (Starved, w).

Declare Scope go_scope.
Delimit Scope go_scope with go.
Notation "x <- m ;; k" := (bind m (fun x => k))
  (at level 61, m at next level, right associativity) : go_scope.
Notation "' pat <- m ;; k" :=
  (bind m (fun x => match x with pat => k end))
  (at level 61, pat pattern, m at next level, right associativity) : go_scope.
Open Scope go_scope.

(** The world after one more request, and after one more [select]. *)
Definition logged (w : world) (r : Request) : world :=
  {| calls := (calls w ++ [r])%list; selects := selects w |}.

Definition waited (w : world) : world :=
  {| calls := calls w; selects := S (selects w) |}.

(** [request]: marshal the payload on POST only, build the request, [Do] it. *)
Definition request (e : env) (method url : string) (p : option payload)
  : M (libError + Response) :=
  fun w =>
    let sent := if String.eqb method "POST" then p else None in
    (Done (transport e (next w)),
     logged w {| Method := method; URL := url; Sent := sent |}).

Definition post (e : env) (url : string) (p : payload) : M (libError + Response) :=
  request e "POST" url (Some p).

Definition get (e : env) (url : string) : M (libError + Response) :=
  request e "GET" url None.

(** [select] over the two timer channels. *)
Definition select (e : env) : M timerEvent :=
  fun w => (Done (timers e (selects w)), waited w).

(** [fmt.Sprintf("%s://%s:%d/%s/%s", schema, host, port, version, path)] *)
Definition formatURL (schema host : string) (port : Z) (version path : string) : string :=
  schema ++ "://" ++ host ++ ":" ++ sprint_d port ++ "/" ++ version ++ "/" ++ path.

Definition lift (r : libError) : option error := Some (foreign r).

(** ** [crypto/md5] *)

(** Go's [hash.Hash]: [Reset], [Write] and [Sum] of a hash object. *)
Class Hash (H : Type) : Type := {
  Reset : H -> H;
  Write : H -> list Z -> H;
  Sum : H -> list Z -> list Z
}.

Module md5.

Definition u32 (x : Z) : Z := x mod 2 ^ 32.
Definition add32 (a b : Z) : Z := u32 (a + b).
Definition not32 (x : Z) : Z := Z.lxor x 0xffffffff.
Definition rotl32 (x c : Z) : Z :=
  Z.lor (u32 (Z.shiftl x c)) (Z.shiftr x (32 - c)).

Definition K : list Z :=
  [ 0xd76aa478; 0xe8c7b756; 0x242070db; 0xc1bdceee;
    0xf57c0faf; 0x4787c62a; 0xa8304613; 0xfd469501;
    0x698098d8; 0x8b44f7af; 0xffff5bb1; 0x895cd7be;
    0x6b901122; 0xfd987193; 0xa679438e; 0x49b40821;
    0xf61e2562; 0xc040b340; 0x265e5a51; 0xe9b6c7aa;
    0xd62f105d; 0x02441453; 0xd8a1e681; 0xe7d3fbc8;
    0x21e1cde6; 0xc33707d6; 0xf4d50d87; 0x455a14ed;
    0xa9e3e905; 0xfcefa3f8; 0x676f02d9; 0x8d2a4c8a;
    0xfffa3942; 0x8771f681; 0x6d9d6122; 0xfde5380c;
    0xa4beea44; 0x4bdecfa9; 0xf6bb4b60; 0xbebfbc70;
    0x289b7ec6; 0xeaa127fa; 0xd4ef3085; 0x04881d05;
    0xd9d4d039; 0xe6db99e5; 0x1fa27cf8; 0xc4ac5665;
    0xf4292244; 0x432aff97; 0xab9423a7; 0xfc93a039;
    0x655b59c3; 0x8f0ccc92; 0xffeff47d; 0x85845dd1;
    0x6fa87e4f; 0xfe2ce6e0; 0xa3014314; 0x4e0811a1;
    0xf7537e82; 0xbd3af235; 0x2ad7d2bb; 0xeb86d391 ].

Definition shifts : list Z :=
  [ 7; 12; 17; 22; 7; 12; 17; 22; 7; 12; 17; 22; 7; 12; 17; 22;
    5; 9; 14; 20; 5; 9; 14; 20; 5; 9; 14; 20; 5; 9; 14; 20;
    4; 11; 16; 23; 4; 11; 16; 23; 4; 11; 16; 23; 4; 11; 16; 23;
    6; 10; 15; 21; 6; 10; 15; 21; 6; 10; 15; 21; 6; 10; 15; 21 ].

Definition BlockSize : nat := 64.
Definition Size : nat := 16.

Definition state : Type := (Z * Z * Z * Z)%type.

Definition init : state := (0x67452301, 0xefcdab89, 0x98badcfe, 0x10325476).

(** Little-endian 32-bit words of a block. *)
Fixpoint words (bs : list Z) : list Z :=
  match bs with
  | b0 :: b1 :: b2 :: b3 :: rest =>
      Z.lor b0 (Z.lor (Z.shiftl b1 8) (Z.lor (Z.shiftl b2 16) (Z.shiftl b3 24)))
      :: words rest
  | _ => []
  end.

Definition step (m : list Z) (st : state) (i : nat) : state :=
  let '(a, b, c, d) := st in
  let iz := Z.of_nat i in
  let '(f, g) :=
    if iz <? 16 then (Z.lor (Z.land b c) (Z.land (not32 b) d), iz)
    else if iz <? 32 then (Z.lor (Z.land b d) (Z.land c (not32 d)), (5 * iz + 1) mod 16)
    else if iz <? 48 then (Z.lxor b (Z.lxor c d), (3 * iz + 5) mod 16)
    else (Z.lxor c (Z.lor b (not32 d)), (7 * iz) mod 16) in
  let f' := add32 (add32 (add32 f a) (nth i K 0)) (nth (Z.to_nat g) m 0) in
  (d, add32 b (rotl32 f' (nth i shifts 0)), b, c).

(** One 64-byte block. *)
Definition block (st : state) (bs : list Z) : state :=
  let m := words bs in
  let '(a, b, c, d) := st in
  let '(a', b', c', d') := fold_left (step m) (seq 0 64) st in
  (add32 a a', add32 b b', add32 c c', add32 d d').

(** [n] blocks from the front of [bs]. *)
Fixpoint blocks (n : nat) (st : state) (bs : list Z) : state :=
  match n with
  | O => st
  | S n' => blocks n' (block st (firstn BlockSize bs)) (skipn BlockSize bs)
  end.

(** The hash object: chaining state, pending bytes (fewer than a block),
    number of bytes written. *)
Record digest : Type := {
  s : state;
  x : list Z;
  len : Z
}.

Definition New : digest := {| s := init; x := []; len := 0 |}.

Definition reset (d : digest) : digest := New.

Definition write (d : digest) (p : list Z) : digest :=
  let buf := (x d ++ p)%list in
  let n := (List.length buf / BlockSize)%nat in
  {| s := blocks n (s d) buf;
     x := skipn (n * BlockSize) buf;
     len := len d + Z.of_nat (List.length p) |}.

Definition le_bytes (n : nat) (v : Z) : list Z :=
  map (fun i => Z.land (Z.shiftr v (8 * Z.of_nat i)) 0xff) (seq 0 n).

(** Padding: 0x80, zeros up to 56 mod 64, the bit length on 8 bytes. *)
Definition checkSum (d : digest) : list Z :=
  let r := (len d) mod 64 in
  let zeros := if r <? 56 then 55 - r else 119 - r in
  let pad := ((0x80 :: repeat 0 (Z.to_nat zeros))
              ++ le_bytes 8 ((len d * 8) mod 2 ^ 64))%list in
  let '(a, b, c, e) := s (write d pad) in
  (le_bytes 4 a ++ le_bytes 4 b ++ le_bytes 4 c ++ le_bytes 4 e)%list.

Definition sum (d : digest) (b : list Z) : list Z := (b ++ checkSum d)%list.

End md5.

#[export] Instance md5_Hash : Hash md5.digest := {
  Reset := md5.reset;
  Write := md5.write;
  Sum := md5.sum
}.

(** ** [github.com/pborman/uuid] *)

Module uuid.

Definition UUID : Type := list Z.

(** [NIL = Parse("00000000-0000-0000-0000-000000000000")] *)
Definition NIL : UUID := repeat 0 16.

(** [copy(dst, src)]: the first [min (len dst) (len src)] elements. *)
Definition copy (dst src : list Z) : list Z :=
  (firstn (List.length dst) src ++ skipn (List.length src) dst)%list.

(** [l[i] = v], for an index in range. *)
Fixpoint assign (l : list Z) (i : nat) (v : Z) : list Z :=
  match l, i with
  | [], _ => []
  | _ :: t, O => v :: t
  | h :: t, S i' => h :: assign t i' v
  end.

Definition uint8 (v : Z) : Z := v mod 256.

Definition NewHash {H : Type} `{Hash H} (h : H) (space : UUID)
           (data : list Z) (version : Z) : UUID :=
  let h := Reset h in
  let h := Write h space in
  let h := Write h data in
  let s := Sum h [] in
  let uuid := copy (repeat 0 16) s in
  let uuid := assign uuid 6
    (Z.lor (Z.land (nth 6 uuid 0) 0x0f) (uint8 (Z.shiftl (Z.land version 0xf) 4))) in
  let uuid := assign uuid 8 (Z.lor (Z.land (nth 8 uuid 0) 0x3f) 0x80) in
  uuid.

Definition hexdigit (n : Z) : ascii :=
  nth (Z.to_nat n) (list_ascii_of_string "0123456789abcdef") "0"%char.

(** [%x] on a byte slice: two lower-case digits for each byte. *)
Fixpoint hex (bs : list Z) : string :=
  match bs with
  | [] => ""
  | b :: rest => String (hexdigit (b / 16)) (String (hexdigit (b mod 16)) (hex rest))
  end.

Definition slice (l : list Z) (from to : nat) : list Z :=
  firstn (to - from) (skipn from l).

(** [fmt.Sprintf("%08x-%04x-%04x-%04x-%012x", b[:4], b[4:6], b[6:8], b[8:10], b[10:])],
    and the empty string for a UUID that has not 16 bytes. *)
Definition String_ (u : UUID) : string :=
  if Nat.eqb (List.length u) 16 then
    hex (slice u 0 4) ++ "-" ++ hex (slice u 4 6) ++ "-" ++ hex (slice u 6 8)
    ++ "-" ++ hex (slice u 8 10) ++ "-" ++ hex (slice u 10 16)
  else "".

End uuid.

(** ** [util.go] *)

(** [[]byte(v)] *)
Definition bytes_of_string (v : string) : list Z :=
  map (fun a => Z.of_N (N_of_ascii a)) (list_ascii_of_string v).

(** [datasetIDFromName] returns a UUID string for the input value. *)
Definition datasetIDFromName (v : string) : string :=
  let space := uuid.NIL in
  uuid.String_ (uuid.NewHash md5.New space (bytes_of_string v) 4).

(** ** [client.go]: the loops over decoded lists *)

(** [for _, r := range configurations]: the dataset id of the first entry
    with the name. *)
Fixpoint rangeConfigurations (configurations : list configurationPayload)
         (name : string) : string * option error :=
  match configurations with
  | [] => ("", Some errConfigurationNotFound)
  | r :: rest =>
      if String.eqb (Name (Metadata r)) name then (DatasetID r, None)
      else rangeConfigurations rest name
  end.

(** [for _, s := range states] over node states. *)
Fixpoint rangeNodeStates (states : list nodeStatePayload)
         (address : string) : string * option error :=
  match states with
  | [] => ("", Some errStateNotFound)
  | s :: rest =>
      if String.eqb (Host s) address then (UUID s, None)
      else rangeNodeStates rest address
  end.

(** [for _, s := range states] over dataset states. Reading [s.DatasetID]
    goes through the embedded pointer and panics when it is nil. *)
Fixpoint rangeDatasetStates (states : list datasetStatePayload)
         (datasetID : string) : M (option datasetState * option error) :=
  match states with
  | [] => ret (None, Some errStateNotFound)
  | s :: rest =>
      match embedded s with
      | None => panic
      | Some d =>
          if String.eqb (ds_DatasetID d) datasetID then ret (embedded s, None)
          else rangeDatasetStates rest datasetID
      end
  end.

Definition creationError (status : Z) : error :=
  Errorf ("Expected: {1,2}xx creating the volume, got: " ++ sprint_d status).

(** ** [Client], the revision with a [clientIP] *)

Module Client.

Record Client : Type := {
  schema : string;
  host : string;
  port : Z;
  version : string;
  clientIP : string;
  maximumSize : Number
}.

(** [NewClient]; [tls] is the error of [newTLSClient], if any. *)
Definition NewClient (tls : option libError) (host : string) (port : Z)
           (clientIP : string) : option Client * option error :=
  match tls with
  | Some err => (None, lift err)
  | None =>
      (Some {| schema := "https"; host := host; port := port; version := "v1";
               maximumSize := defaultVolumeSize; clientIP := clientIP |},
       None)
  end.

Definition getURL (c : Client) (path : string) : string :=
  formatURL (schema c) (host c) (port c) (version c) path.

Definition findIDInConfigurationsPayload (c : Client) (b : Body)
           (name : string) : string * option error :=
  match decodeConfigurations b with
  | inr configurations => rangeConfigurations configurations name
  | inl err => ("", lift err)
  end.

Definition LookupPrimaryUUID (e : env) (c : Client) : M (string * option error) :=
  r <- get e (getURL c "state/nodes") ;;
  match r with
  | inl err => ret ("", lift err)
  | inr resp =>
      match decodeNodeStates (body resp) with
      | inr states => ret (rangeNodeStates states (clientIP c))
      | inl err => ret ("", lift err)
      end
  end.

Definition GetDatasetState (e : env) (c : Client) (datasetID : string)
  : M (option datasetState * option error) :=
  r <- get e (getURL c "state/datasets") ;;
  match r with
  | inl err => ret (None, lift err)
  | inr resp =>
      match decodeDatasetStates (body resp) with
      | inr states => rangeDatasetStates states datasetID
      | inl err => ret (None, lift err)
      end
  end.

(** The [for] loop of [CreateVolume]. [err] is the variable of the
    function: the [err] that [GetDatasetState] returns is declared by the
    [if] statement and is out of scope in the [select]. [fuel] bounds the
    number of iterations. *)
Fixpoint CreateVolume_loop (e : env) (c : Client) (datasetID : string)
         (err : option error) (fuel : nat) : M (string * option error) :=
  match fuel with
  | O => starve
  | S fuel' =>
      '(s, err') <- GetDatasetState e c datasetID ;;
      match err' with
      | None =>
          match s with
          | Some d => ret (ds_Path d, None)
          | None => panic
          end
      | Some errStateNotFound =>
          ev <- select e ;;
          match ev with
          | timeoutChan => ret ("", err)
          | tickChan => CreateVolume_loop e c datasetID err fuel'
          end
      | Some _ => ret ("", err')
      end
  end.

Definition CreateVolume (e : env) (c : Client) (dir : string) (fuel : nat)
  : M (string * option error) :=
  '(primary, err) <- LookupPrimaryUUID e c ;;
  match err with
  | Some _ => ret ("", err)
  | None =>
      let payload :=
        {| Primary := primary; DatasetID := ""; MaximumSize := maximumSize c;
           Metadata := {| Name := dir |} |} in
      r <- post e (getURL c "configuration/datasets") (configurationBody payload) ;;
      match r with
      | inl err => ret ("", lift err)
      | inr resp =>
          (* [resp, err := c.post(...)] left the function's [err] nil *)
          let err : option error := None in
          if StatusCode resp =? StatusConflict then ret ("", Some errVolumeAlreadyExists)
          else if StatusCode resp >=? 300 then
            ret ("", Some (creationError (StatusCode resp)))
          else
            match decodeConfiguration (body resp) with
            | inl err => ret ("", lift err)
            | inr p => CreateVolume_loop e c (DatasetID p) err fuel
            end
      end
  end.

Definition QueryDatasetIDFromName (e : env) (c : Client) (v : string)
  : M (string * option error) :=
  r <- get e (getURL c "configuration/datasets") ;;
  match r with
  | inl err => ret ("", lift err)
  | inr resp =>
      match decodeConfigurations (body resp) with
      | inr configurations => ret (rangeConfigurations configurations v)
      | inl err => ret ("", lift err)
      end
  end.

Definition LookupVolume (e : env) (c : Client) (dir : string)
  : M (string * option error) :=
  '(datasetID, err) <- QueryDatasetIDFromName e c dir ;;
  match err with
  | Some _ => ret ("", err)
  | None =>
      '(s, err) <- GetDatasetState e c datasetID ;;
      match err with
      | None =>
          match s with
          | Some d => ret (ds_Path d, err)
          | None => panic
          end
      | Some errStateNotFound => ret ("", Some errVolumeDoesNotExist)
      | Some _ => ret ("", err)
      end
  end.

Definition UpdateDatasetPrimary (e : env) (c : Client)
           (datasetID newPrimary : string) : M (option error) :=
  let payload := primaryBody newPrimary in
  let url := getURL c ("configuration/datasets/" ++ datasetID) in
  r <- post e url payload ;;
  match r with
  | inl err => ret (lift err)
  | inr resp =>
      if StatusCode resp >=? 300 then ret (Some errUpdatingDataset)
      else ret None
  end.

End Client.

(** ** [flockerClient], the revision that derives the dataset id *)

Module flockerClient.

Record flockerClient : Type := {
  schema : string;
  host : string;
  port : Z;
  version : string;
  maximumSize : Number
}.

Definition NewClient (tls : option libError) (host : string) (port : Z)
  : option flockerClient * option error :=
  match tls with
  | Some err => (None, lift err)
  | None =>
      (Some {| schema := "https"; host := host; port := port; version := "v1";
               maximumSize := defaultVolumeSize |},
       None)
  end.

Definition getURL (c : flockerClient) (path : string) : string :=
  formatURL (schema c) (host c) (port c) (version c) path.

Definition findIDInConfigurationsPayload (c : flockerClient) (b : Body)
           (name : string) : string * option error :=
  match decodeConfigurations b with
  | inr configurations => rangeConfigurations configurations name
  | inl err => ("", lift err)
  end.

Definition findPrimaryUUID (e : env) (c : flockerClient) : M (string * option error) :=
  r <- get e (getURL c "state/nodes") ;;
  match r with
  | inl err => ret ("", lift err)
  | inr resp =>
      match decodeNodeStates (body resp) with
      | inr states => ret (rangeNodeStates states (host c))
      | inl err => ret ("", lift err)
      end
  end.

Definition GetDatasetState (e : env) (c : flockerClient) (datasetID : string)
  : M (option datasetState * option error) :=
  r <- get e (getURL c "state/datasets") ;;
  match r with
  | inl err => ret (None, lift err)
  | inr resp =>
      match decodeDatasetStates (body resp) with
      | inr states => rangeDatasetStates states datasetID
      | inl err => ret (None, lift err)
      end
  end.

(** The [for] loop of [CreateVolume]; see [Client.CreateVolume_loop]. *)
Fixpoint CreateVolume_loop (e : env) (c : flockerClient) (datasetID : string)
         (err : option error) (fuel : nat) : M (string * option error) :=
  match fuel with
  | O => starve
  | S fuel' =>
      '(s, err') <- GetDatasetState e c datasetID ;;
      match err' with
      | None =>
          match s with
          | Some d => ret (ds_Path d, None)
          | None => panic
          end
      | Some errStateNotFound =>
          ev <- select e ;;
          match ev with
          | timeoutChan => ret ("", err)
          | tickChan => CreateVolume_loop e c datasetID err fuel'
          end
      | Some _ => ret ("", err')
      end
  end.

Definition CreateVolume (e : env) (c : flockerClient) (dir : string) (fuel : nat)
  : M (string * option error) :=
  '(primary, err) <- findPrimaryUUID e c ;;
  match err with
  | Some _ => ret ("", err)
  | None =>
      let datasetID := datasetIDFromName dir in
      let payload :=
        {| Primary := primary; DatasetID := datasetID;
           MaximumSize := maximumSize c; Metadata := {| Name := dir |} |} in
      r <- post e (getURL c "configuration/datasets") (configurationBody payload) ;;
      match r with
      | inl err => ret ("", lift err)
      | inr resp =>
          (* [resp, err := c.post(...)] left the function's [err] nil *)
          let err : option error := None in
          if StatusCode resp =? StatusConflict then ret ("", Some errVolumeAlreadyExists)
          else if StatusCode resp >=? 300 then
            ret ("", Some (creationError (StatusCode resp)))
          else CreateVolume_loop e c datasetID err fuel
      end
  end.

Definition LookupVolume (e : env) (c : flockerClient) (dir : string)
  : M (string * option error) :=
  let datasetID := datasetIDFromName dir in
  '(s, err) <- GetDatasetState e c datasetID ;;
  match err with
  | None =>
      match s with
      | Some d => ret (ds_Path d, err)
      | None => panic
      end
  | Some errStateNotFound => ret ("", Some errVolumeDoesNotExist)
  | Some _ => ret ("", err)
  end.

Definition UpdateDatasetPrimary (e : env) (c : flockerClient)
           (dir newPrimary : string) : M (option error) :=
  let datasetID := datasetIDFromName dir in
  let payload :=
    {| Primary := newPrimary; DatasetID := ""; MaximumSize := "";
       Metadata := {| Name := "" |} |} in
  let url := getURL c ("configuration/datasets/" ++ datasetID) in
  r <- post e url (configurationBody payload) ;;
  match r with
  | inl err => ret (lift err)
  | inr resp =>
      if (StatusCode resp <? 200) || (StatusCode resp >=? 300)
      then ret (Some errUpdatingDataset)
      else ret None
  end.

End flockerClient.

(** ** What the searches are to return *)

(** The first entry of [l] with the name gives the result; none gives
    [errConfigurationNotFound]. *)
Definition firstConfiguration (l : list configurationPayload) (name : string)
           (res : string * option error) : Prop :=
  (exists before r after,
      l = (before ++ r :: after)%list
      /\ Name (Metadata r) = name
      /\ (forall q, In q before -> Name (Metadata q) <> name)
      /\ res = (DatasetID r, None))
  \/ ((forall q, In q l -> Name (Metadata q) <> name)
      /\ res = ("", Some errConfigurationNotFound)).

(** The first node of [l] at the address gives the result; none gives
    [errStateNotFound]. *)
Definition firstNode (l : list nodeStatePayload) (address : string)
           (res : string * option error) : Prop :=
  (exists before s after,
      l = (before ++ s :: after)%list
      /\ Host s = address
      /\ (forall q, In q before -> Host q <> address)
      /\ res = (UUID s, None))
  \/ ((forall q, In q l -> Host q <> address)
      /\ res = ("", Some errStateNotFound)).

(** The result of [LookupVolume] for the result [r] of [GetDatasetState]:
    the path on success, [errVolumeDoesNotExist] for [errStateNotFound], any
    other error as it is. *)
Definition translated (r : option datasetState * option error)
           (res : string * option error) : Prop :=
  match r with
  | (Some d, None) => res = (ds_Path d, None)
  | (None, None) => False
  | (_, Some errStateNotFound) => res = ("", Some errVolumeDoesNotExist)
  | (_, Some err) => res = ("", Some err)
  end.

(** The requests of the client, as [request] logs them. *)
Definition GET (url : string) : Request :=
  {| Method := "GET"; URL := url; Sent := None |}.

Definition POST (url : string) (p : payload) : Request :=
  {| Method := "POST"; URL := url; Sent := Some p |}.

(** No state of [l] is the state of [datasetID], and none has a nil pointer:
    the search ends with [errStateNotFound]. *)
Definition absent (datasetID : string) (l : list datasetStatePayload) : Prop :=
  Forall (fun s => exists d, embedded s = Some d /\ ds_DatasetID d <> datasetID) l.

(** The requests that a run added to those of [w]. *)
Definition added (w w' : world) : list Request := skipn (next w) (calls w').

(** ** The common shape of the two revisions

    [GetDatasetState] and the loop of [CreateVolume] differ between the two
    revisions in the receiver only, of which they use the URL. [lookupState]
    and [waitLoop] are the two functions with the URL as a parameter; each
    revision is shown below to be an instance. *)

Definition lookupState (e : env) (url datasetID : string)
  : M (option datasetState * option error) :=
  r <- get e url ;;
  match r with
  | inl err => ret (None, lift err)
  | inr resp =>
      match decodeDatasetStates (body resp) with
      | inr states => rangeDatasetStates states datasetID
      | inl err => ret (None, lift err)
      end
  end.

Fixpoint waitLoop (e : env) (url datasetID : string) (err : option error)
         (fuel : nat) : M (string * option error) :=
  match fuel with
  | O => starve
  | S fuel' =>
      '(s, err') <- lookupState e url datasetID ;;
      match err' with
      | None =>
          match s with
          | Some d => ret (ds_Path d, None)
          | None => panic
          end
      | Some errStateNotFound =>
          ev <- select e ;;
          match ev with
          | timeoutChan => ret ("", err)
          | tickChan => waitLoop e url datasetID err fuel'
          end
      | Some _ => ret ("", err')
      end
  end.

(** The result of the node lookup in the world [w], for the address that the
    revision compares the hosts with. *)
Definition primaryOf (e : env) (address : string) (w : world)
  : string * option error :=
  match transport e (next w) with
  | inl err => ("", lift err)
  | inr resp =>
      match decodeNodeStates (body resp) with
      | inr states => rangeNodeStates states address
      | inl err => ("", lift err)
      end
  end.

(** The creation requests of the two revisions. *)
Definition creation (c : Client.Client) (primary dir : string) : Request :=
  POST (Client.getURL c "configuration/datasets")
       (configurationBody
          {| Primary := primary; DatasetID := "";
             MaximumSize := Client.maximumSize c;
             Metadata := {| Name := dir |} |}).

Definition creation' (c : flockerClient.flockerClient) (primary dir : string)
  : Request :=
  POST (flockerClient.getURL c "configuration/datasets")
       (configurationBody
          {| Primary := primary; DatasetID := datasetIDFromName dir;
             MaximumSize := flockerClient.maximumSize c;
             Metadata := {| Name := dir |} |}).

(** ** Runs used as examples *)

Module Scenario.

Definition eof : libError := LibError "EOF".
Definition mismatch : libError := LibError "json: cannot unmarshal value".

(** A response without body. *)
Definition noBody : Body :=
  {| decodeNodeStates := inl eof; decodeDatasetStates := inl eof;
     decodeConfigurations := inl eof; decodeConfiguration := inl eof |}.

Definition nodesBody (l : list nodeStatePayload) : Body :=
  {| decodeNodeStates := inr l; decodeDatasetStates := inl mismatch;
     decodeConfigurations := inl mismatch; decodeConfiguration := inl mismatch |}.

Definition statesBody (l : list datasetStatePayload) : Body :=
  {| decodeNodeStates := inl mismatch; decodeDatasetStates := inr l;
     decodeConfigurations := inl mismatch; decodeConfiguration := inl mismatch |}.

Definition configurationsBody (l : list configurationPayload) : Body :=
  {| decodeNodeStates := inl mismatch; decodeDatasetStates := inl mismatch;
     decodeConfigurations := inr l; decodeConfiguration := inl mismatch |}.

Definition configurationBody (p : configurationPayload) : Body :=
  {| decodeNodeStates := inl mismatch; decodeDatasetStates := inl mismatch;
     decodeConfigurations := inl mismatch; decodeConfiguration := inr p |}.

Definition respond (status : Z) (b : Body) : libError + Response :=
  inr {| StatusCode := status; body := b |}.

(** The responses of [l] in order, then [rest] for ever. *)
Definition script (l : list (libError + Response)) (rest : libError + Response)
  : nat -> libError + Response :=
  fun i => nth i l rest.

(** [k] ticks, then the timeout. *)
Definition ticksThenTimeout (k : nat) : nat -> timerEvent :=
  fun i => if Nat.ltb i k then tickChan else timeoutChan.

Definition node (h u : string) : nodeStatePayload := {| UUID := u; Host := h |}.

Definition dataset (id path : string) : datasetStatePayload :=
  {| embedded := Some {| ds_Path := path; ds_DatasetID := id;
                         ds_Primary := ""; ds_MaximumSize := "" |} |}.

Definition configuration (id name : string) : configurationPayload :=
  {| Primary := ""; DatasetID := id; MaximumSize := "";
     Metadata := {| Name := name |} |}.

(** The clients of the tests. *)
Definition client : flockerClient.flockerClient :=
  {| flockerClient.schema := "http"; flockerClient.host := "127.0.0.1";
     flockerClient.port := 8080; flockerClient.version := "v1";
     flockerClient.maximumSize := defaultVolumeSize |}.

Definition client' : Client.Client :=
  {| Client.schema := "http"; Client.host := "127.0.0.1";
     Client.port := 8080; Client.version := "v1";
     Client.clientIP := "127.0.0.1";
     Client.maximumSize := defaultVolumeSize |}.

Definition oneNode : libError + Response :=
  respond 200 (nodesBody [node "127.0.0.1" "A-B-C-D"]).

(** Scenarios A and B: the node of this client is listed, or is not. *)
Definition listed : env :=
  {| transport := script [respond 200 (nodesBody [node "127.0.0.1" "P1"])] (inl eof);
     timers := ticksThenTimeout 0 |}.

Definition unlisted : env :=
  {| transport := script [respond 200 (nodesBody [node "other" "P1"])] (inl eof);
     timers := ticksThenTimeout 0 |}.

(** The only node is at the address 10.0.0.7. *)
Definition elsewhere : env :=
  {| transport := script [respond 200 (nodesBody [node "10.0.0.7" "U7"])] (inl eof);
     timers := ticksThenTimeout 0 |}.

(** Scenario C, [TestCreateVolumeThatAlreadyExists]: the creation is
    answered with 409. *)
Definition conflict : env :=
  {| transport := script [oneNode; respond 409 noBody] (inl eof);
     timers := ticksThenTimeout 0 |}.

(** The dataset of "dir" is in the state list, second. *)
Definition materialized : env :=
  {| transport :=
       script [respond 200 (statesBody [dataset "1-2-3" "not-this-one";
                                        dataset (datasetIDFromName "dir") "awesome-path"])]
              (inl eof);
     timers := ticksThenTimeout 0 |}.

(** The configuration named "dir" has the id "The-42-id"; its state is
    listed. *)
Definition registered : env :=
  {| transport :=
       script [respond 200 (configurationsBody [configuration "The-42-id" "dir"]);
               respond 200 (statesBody [dataset "The-42-id" "awesome-path"])]
              (inl eof);
     timers := ticksThenTimeout 0 |}.

(** No configuration at all. *)
Definition unregistered : env :=
  {| transport := script [respond 200 (configurationsBody [])] (inl eof);
     timers := ticksThenTimeout 0 |}.

Definition accepted : libError + Response :=
  respond 200 (configurationBody (configuration (datasetIDFromName "dir") "dir")).

(** Scenario D, [TestHappyPathCreateVolumeFromNonExistent] with state lists
    that decode: the dataset is in the third state list. *)
Definition happy : env :=
  {| transport :=
       script [oneNode; accepted;
               respond 200 (statesBody []);
               respond 200 (statesBody []);
               respond 200 (statesBody [dataset (datasetIDFromName "dir") "P"])]
              (inl eof);
     timers := ticksThenTimeout 5 |}.

(** Scenario E: the dataset never shows up; two ticks, then the timeout. *)
Definition neverReady : env :=
  {| transport :=
       script [oneNode;
               respond 200 (configurationBody (configuration "service-made-id" "dir"))]
              (respond 200 (statesBody []));
     timers := ticksThenTimeout 2 |}.

(** The service assigns an identifier of its own and lists the state. *)
Definition assigned : env :=
  {| transport :=
       script [oneNode;
               respond 200 (configurationBody (configuration "service-made-id" "dir"))]
              (respond 200 (statesBody [dataset "service-made-id" "/flocker/dir"]));
     timers := ticksThenTimeout 0 |}.

(** The creation is answered with 200 and no body; the state is listed. *)
Definition bodiless : env :=
  {| transport :=
       script [oneNode; respond 200 noBody]
              (respond 200 (statesBody [dataset (datasetIDFromName "dir") "/flocker/dir"]));
     timers := ticksThenTimeout 0 |}.

(** The node list has the control service's host only; the client is at
    another address. *)
Definition remote : Client.Client :=
  {| Client.schema := "http"; Client.host := "127.0.0.1";
     Client.port := 8080; Client.version := "v1";
     Client.clientIP := "10.0.0.7";
     Client.maximumSize := defaultVolumeSize |}.

(** The reassignment is answered with the status [status]. *)
Definition answered (status : Z) : env :=
  {| transport := script [] (respond status noBody);
     timers := ticksThenTimeout 0 |}.

(** The payload of [TestFindIDInConfigurationsPayload]. *)
Definition twoConfigurations : Body :=
  configurationsBody
    [ configuration "1-2-3" "test";
      configuration "The-42-id" "search-for-this-name" ].

End Scenario.

(** ** What the search of the states is to return *)

(** The first state of [l] under the identifier gives the result; a list
    whose states are all of other datasets gives [errStateNotFound]. *)
Definition firstState (l : list datasetStatePayload) (datasetID : string)
           (r : option datasetState * option error) : Prop :=
  (exists before d after,
      l = (before ++ {| embedded := Some d |} :: after)%list
      /\ ds_DatasetID d = datasetID
      /\ absent datasetID before
      /\ r = (Some d, None))
  \/ (absent datasetID l /\ r = (None, Some errStateNotFound)).

(** The world after [n] polls of [url] and [m] waits. *)
Definition polled (w : world) (url : string) (n m : nat) : world :=
  {| calls := (calls w ++ repeat (GET url) n)%list;
     selects := (selects w + m)%nat |}.

(** From the request [n0] and the wait [s0] on, a run waits [k] rounds for the
    dataset: each of the [k] next state lists decodes and has no state of the
    dataset, and each of the [k] next waits receives a tick. *)
Definition waiting (e : env) (datasetID : string) (n0 s0 k : nat) : Prop :=
  (forall i, (i < k)%nat ->
             exists resp states,
               transport e (n0 + i) = inr resp
               /\ decodeDatasetStates (body resp) = inr states
               /\ absent datasetID states)
  /\ (forall i, (i < k)%nat -> timers e (s0 + i) = tickChan).

(** ** More runs used as examples *)

Module Edge.

(** The creation is answered with the status 500. *)
Definition refused : env :=
{| transport := Scenario.script [Scenario.oneNode; Scenario.respond 500 Scenario.noBody]
                                (inl Scenario.eof);
   timers := Scenario.ticksThenTimeout 0 |}.

(** The creation request does not get through. *)
Definition unreachable : env :=
{| transport := Scenario.script [Scenario.oneNode] (inl (LibError "connection refused"));
   timers := Scenario.ticksThenTimeout 0 |}.

(** The service names the dataset "id-1". It is absent from the first two
  state lists and is the second state of the third. *)
Definition ready : env :=
{| transport :=
     Scenario.script
       [Scenario.oneNode;
        Scenario.respond 200 (Scenario.configurationBody
                                (Scenario.configuration "id-1" "dir"));
        Scenario.respond 200 (Scenario.statesBody []);
        Scenario.respond 200 (Scenario.statesBody [Scenario.dataset "id-0" "/flocker/0"]);
        Scenario.respond 200 (Scenario.statesBody [Scenario.dataset "id-0" "/flocker/0";
                                                   Scenario.dataset "id-1" "/flocker/1"])]
       (inl Scenario.eof);
   timers := Scenario.ticksThenTimeout 7 |}.

(** As [ready], but the third state list does not arrive. *)
Definition interrupted : env :=
{| transport :=
     Scenario.script
       [Scenario.oneNode;
        Scenario.respond 200 (Scenario.configurationBody
                                (Scenario.configuration "id-1" "dir"));
        Scenario.respond 200 (Scenario.statesBody []);
        Scenario.respond 200 (Scenario.statesBody [Scenario.dataset "id-0" "/flocker/0"])]
       (inl (LibError "connection reset"));
   timers := Scenario.ticksThenTimeout 7 |}.

(** A state list whose second element sets no field. *)
Definition hollow : env :=
{| transport :=
     Scenario.script
       [Scenario.respond 200 (Scenario.statesBody [Scenario.dataset "id-0" "/flocker/0";
                                                   {| embedded := None |};
                                                   Scenario.dataset "id-1" "/flocker/1"])]
       (inl Scenario.eof);
   timers := Scenario.ticksThenTimeout 0 |}.

(** Two states under "id-1": the first one counts. *)
Definition twice : env :=
{| transport :=
     Scenario.script
       [Scenario.respond 200 (Scenario.statesBody [Scenario.dataset "id-0" "/flocker/0";
                                                   Scenario.dataset "id-1" "/flocker/1";
                                                   Scenario.dataset "id-1" "/flocker/2"])]
       (inl Scenario.eof);
   timers := Scenario.ticksThenTimeout 0 |}.

(** The configuration named "dir" has the id "id-1"; the state list has it. *)
Definition known : env :=
{| transport :=
     Scenario.script
       [Scenario.respond 200 (Scenario.configurationsBody
                                [Scenario.configuration "id-0" "other";
                                 Scenario.configuration "id-1" "dir"]);
        Scenario.respond 200 (Scenario.statesBody [Scenario.dataset "id-1" "/flocker/1"])]
       (inl Scenario.eof);
   timers := Scenario.ticksThenTimeout 0 |}.

End Edge.

(** * Properties *)

(** ** The size constant *)

(** C9: the default volume size, [defaultVolumeSize], read as a number (it is
    100 GiB = 100 * 2^30), is an exact multiple of 1024: the remainder of its
    division by 1024 is 0. *)
Theorem defaultVolumeSize_multiple_of_1024 :
  exists n : Z,
    Atoi defaultVolumeSize = Some n
    /\ n = 100 * 2 ^ 30
    /\ Z.rem n 1024 = 0
    /\ n mod 1024 = 0.
Proof.
  exists 107374182400. repeat split.
Qed.

(** ** The identifier derivation *)

Section Identifier.

Context {H : Type} `{Hash H}.

Lemma assign_length (l : list Z) (i : nat) (v : Z) :
  List.length (uuid.assign l i v) = List.length l.
Proof.
  revert i; induction l as [|a l IH]; intros [|i]; simpl; auto.
Qed.

Lemma copy_length (dst src : list Z) :
  List.length (uuid.copy dst src) = List.length dst.
Proof.
  unfold uuid.copy.
  rewrite length_app, length_firstn, length_skipn. lia.
Qed.

(** A UUID made by [NewHash] has 16 bytes, whatever the hash. *)
Lemma NewHash_length (h : H) (space : uuid.UUID) (data : list Z) (version : Z) :
  List.length (uuid.NewHash h space data version) = 16%nat.
Proof.
  unfold uuid.NewHash.
  rewrite !assign_length, copy_length. apply repeat_length.
Qed.

End Identifier.

Lemma hex_length (bs : list Z) :
  String.length (uuid.hex bs) = (2 * List.length bs)%nat.
Proof.
  induction bs as [|b bs IH]; simpl; [reflexivity|]. rewrite IH. lia.
Qed.

Lemma string_app_length (a b : string) :
  String.length (a ++ b) = (String.length a + String.length b)%nat.
Proof.
  induction a as [|c a IH]; simpl; [reflexivity|]. now rewrite IH.
Qed.

Lemma slice_length (l : list Z) (from to : nat) :
  (to <= List.length l)%nat ->
  List.length (uuid.slice l from to) = (to - from)%nat.
Proof.
  intros Hle. unfold uuid.slice. rewrite length_firstn, length_skipn. lia.
Qed.

(** The text of a 16-byte UUID has 36 characters. *)
Lemma String_length (u : uuid.UUID) :
  List.length u = 16%nat -> String.length (uuid.String_ u) = 36%nat.
Proof.
  intros Hu. unfold uuid.String_. rewrite Hu. simpl Nat.eqb. cbv iota.
  repeat rewrite string_app_length. repeat rewrite hex_length.
  repeat rewrite slice_length by lia. reflexivity.
Qed.

Lemma datasetIDFromName_length (v : string) :
  String.length (datasetIDFromName v) = 36%nat.
Proof.
  unfold datasetIDFromName. apply String_length, NewHash_length.
Qed.

(** The identifiers that [TestDatasetIDFromName] expects. *)
Example datasetIDFromName_hello :
  datasetIDFromName "hello" = "a6c0426f-f9a3-4b59-a62f-4807c382b768"
  /\ datasetIDFromName "helloS4" = "90a388bf-dfca-490f-812a-67aec0cd9f09".
Proof. split; vm_compute; reflexivity. Qed.

(** C8: the derivation of the identifier is deterministic. Equal names give
    equal identifiers; the identifier has a fixed length (36 characters); and
    it depends on nothing but the name and the constant namespace [NIL]: the
    hash object is reset before use, so whatever was written into it before
    has no effect. *)
Theorem datasetIDFromName_deterministic (h1 h2 : md5.digest) (v1 v2 : string) :
  v1 = v2 ->
  datasetIDFromName v1 = datasetIDFromName v2
  /\ uuid.String_ (uuid.NewHash h1 uuid.NIL (bytes_of_string v1) 4) = datasetIDFromName v2
  /\ uuid.String_ (uuid.NewHash h2 uuid.NIL (bytes_of_string v2) 4) = datasetIDFromName v1
  /\ String.length (datasetIDFromName v1) = 36%nat.
Proof.
  intros ->. repeat split; auto using datasetIDFromName_length.
Qed.

Lemma datasetIDFromName_deterministic_witness :
  "hello" = "hello"
  /\ datasetIDFromName "hello" = datasetIDFromName "hello"
  /\ String.length (datasetIDFromName "hello") = 36%nat.
Proof.
  split; [reflexivity|].
  pose proof (datasetIDFromName_deterministic
                (md5.write md5.New [1; 2; 3]) md5.New "hello" "hello" eq_refl)
    as (Heq & _ & _ & Hlen).
  split; assumption.
Defined.

(** ** The searches *)

Lemma rangeConfigurations_first (l : list configurationPayload) (name : string) :
  firstConfiguration l name (rangeConfigurations l name).
Proof.
  induction l as [|r l IH]; simpl.
  - right. split; [intros q []|reflexivity].
  - destruct (String.eqb_spec (Name (Metadata r)) name) as [Heq|Hne].
    + left. exists [], r, l. repeat split; auto; intros q [].
    + destruct IH as [(before & r' & after & -> & Hn & Hb & ->)|(Hall & ->)].
      * left. exists (r :: before), r', after. repeat split; auto.
        intros q [<-|Hq]; auto.
      * right. split; [|reflexivity]. intros q [<-|Hq]; auto.
Qed.

Lemma rangeNodeStates_first (l : list nodeStatePayload) (address : string) :
  firstNode l address (rangeNodeStates l address).
Proof.
  induction l as [|s l IH]; simpl.
  - right. split; [intros q []|reflexivity].
  - destruct (String.eqb_spec (Host s) address) as [Heq|Hne].
    + left. exists [], s, l. repeat split; auto; intros q [].
    + destruct IH as [(before & s' & after & -> & Hn & Hb & ->)|(Hall & ->)].
      * left. exists (s :: before), s', after. repeat split; auto.
        intros q [<-|Hq]; auto.
      * right. split; [|reflexivity]. intros q [<-|Hq]; auto.
Qed.

(** C6: the search of a configuration list, [findIDInConfigurationsPayload]
    (in both revisions) and the same search in [QueryDatasetIDFromName]. On a
    body that decodes, the result is the dataset id of the first entry, in
    list order, whose name is the requested one, and
    [errConfigurationNotFound] when no entry has the name; on a body that does
    not decode, the result is the error of the decoder. *)
Theorem findIDInConfigurationsPayload_first_match
        (b : Body) (name : string)
        (c : Client.Client) (c' : flockerClient.flockerClient)
        (e : env) (w : world) :
  match decodeConfigurations b with
  | inr l =>
      firstConfiguration l name (Client.findIDInConfigurationsPayload c b name)
      /\ firstConfiguration l name (flockerClient.findIDInConfigurationsPayload c' b name)
  | inl err =>
      Client.findIDInConfigurationsPayload c b name = ("", Some (foreign err))
      /\ flockerClient.findIDInConfigurationsPayload c' b name = ("", Some (foreign err))
  end
  /\ match transport e (next w) with
     | inr resp =>
         match decodeConfigurations (body resp) with
         | inr l =>
             exists res, fst (Client.QueryDatasetIDFromName e c name w) = Done res
                         /\ firstConfiguration l name res
         | inl err =>
             fst (Client.QueryDatasetIDFromName e c name w)
             = Done ("", Some (foreign err))
         end
     | inl err =>
         fst (Client.QueryDatasetIDFromName e c name w) = Done ("", Some (foreign err))
     end.
Proof.
  split.
  - unfold Client.findIDInConfigurationsPayload,
      flockerClient.findIDInConfigurationsPayload.
    destruct (decodeConfigurations b) as [err|l]; split;
      auto using rangeConfigurations_first.
  - unfold Client.QueryDatasetIDFromName, get, request, bind; simpl.
    destruct (transport e (next w)) as [err|resp]; simpl; auto.
    destruct (decodeConfigurations (body resp)) as [err|l]; simpl; auto.
    eexists; split; [reflexivity|apply rangeConfigurations_first].
Qed.

(** The three cases of [TestFindIDInConfigurationsPayload]. *)
Example findIDInConfigurationsPayload_test :
  flockerClient.findIDInConfigurationsPayload
    Scenario.client Scenario.twoConfigurations "search-for-this-name"
  = ("The-42-id", None)
  /\ flockerClient.findIDInConfigurationsPayload
       Scenario.client Scenario.twoConfigurations "it will not be found"
     = ("", Some errConfigurationNotFound)
  /\ flockerClient.findIDInConfigurationsPayload Scenario.client Scenario.noBody ""
     = ("", Some (foreign Scenario.eof)).
Proof. repeat split. Qed.

(** C3, as the code has it: [Client.LookupPrimaryUUID] gets the node list and
    returns the uuid of the first node whose host is the [clientIP] configured
    for the client; [flockerClient.findPrimaryUUID] does the same with the
    configured [host]. Each fails with [errStateNotFound] when no node of the
    list has that address, and returns the error of the transport or of the
    decoder as it is. *)
Theorem LookupPrimaryUUID_matches_host
        (e : env) (c : Client.Client) (c' : flockerClient.flockerClient) (w : world) :
  match transport e (next w) with
  | inr resp =>
      match decodeNodeStates (body resp) with
      | inr states =>
          (exists res, fst (Client.LookupPrimaryUUID e c w) = Done res
                       /\ firstNode states (Client.clientIP c) res)
          /\ (exists res, fst (flockerClient.findPrimaryUUID e c' w) = Done res
                          /\ firstNode states (flockerClient.host c') res)
      | inl err =>
          fst (Client.LookupPrimaryUUID e c w) = Done ("", Some (foreign err))
          /\ fst (flockerClient.findPrimaryUUID e c' w) = Done ("", Some (foreign err))
      end
  | inl err =>
      fst (Client.LookupPrimaryUUID e c w) = Done ("", Some (foreign err))
      /\ fst (flockerClient.findPrimaryUUID e c' w) = Done ("", Some (foreign err))
  end.
Proof.
  unfold Client.LookupPrimaryUUID, flockerClient.findPrimaryUUID,
    get, request, bind; simpl.
  destruct (transport e (next w)) as [err|resp]; simpl; auto.
  destruct (decodeNodeStates (body resp)) as [err|states]; simpl; auto.
  split; eexists; (split; [reflexivity|apply rangeNodeStates_first]).
Qed.

(** The claim of C3 fails for [Client] when its [clientIP] is not its [host]:
    with the host 127.0.0.1 and the client address 10.0.0.7, a list whose only
    node is at 127.0.0.1 gives [errStateNotFound], and a list whose only node
    is at 10.0.0.7 gives the uuid of that node. *)
Lemma LookupPrimaryUUID_counterexample :
  Client.host Scenario.remote = "127.0.0.1"
  /\ Client.clientIP Scenario.remote = "10.0.0.7"
  /\ transport Scenario.listed 0
     = Scenario.respond 200 (Scenario.nodesBody [Scenario.node "127.0.0.1" "P1"])
  /\ fst (Client.LookupPrimaryUUID Scenario.listed Scenario.remote start)
     = Done ("", Some errStateNotFound)
  /\ transport Scenario.elsewhere 0
     = Scenario.respond 200 (Scenario.nodesBody [Scenario.node "10.0.0.7" "U7"])
  /\ fst (Client.LookupPrimaryUUID Scenario.elsewhere Scenario.remote start)
     = Done ("U7", None).
Proof. repeat split. Qed.

(** Scenarios A and B of the node lookup. *)
Example LookupPrimaryUUID_scenarios :
  fst (flockerClient.findPrimaryUUID Scenario.listed Scenario.client start)
  = Done ("P1", None)
  /\ fst (Client.LookupPrimaryUUID Scenario.listed Scenario.client' start)
     = Done ("P1", None)
  /\ fst (flockerClient.findPrimaryUUID Scenario.unlisted Scenario.client start)
     = Done ("", Some errStateNotFound)
  /\ fst (Client.LookupPrimaryUUID Scenario.unlisted Scenario.client' start)
     = Done ("", Some errStateNotFound).
Proof. repeat split. Qed.

(** ** Equations of the requests *)

Lemma get_run (e : env) (url : string) (w : world) :
  get e url w = (Done (transport e (next w)), logged w (GET url)).
Proof. reflexivity. Qed.

Lemma post_run (e : env) (url : string) (p : payload) (w : world) :
  post e url p w = (Done (transport e (next w)), logged w (POST url p)).
Proof. reflexivity. Qed.

Lemma next_logged (w : world) (r : Request) : next (logged w r) = S (next w).
Proof. unfold next, logged; simpl. rewrite length_app; simpl. lia. Qed.

Lemma next_waited (w : world) : next (waited w) = next w.
Proof. reflexivity. Qed.

(** The search of the states makes no request; it ends with a state of the
    list that has the identifier, or with [errStateNotFound]. *)
Lemma rangeDatasetStates_result (l : list datasetStatePayload) (id : string)
      (w w' : world) (r : option datasetState * option error) :
  rangeDatasetStates l id w = (Done r, w') ->
  w' = w
  /\ ((exists d, r = (Some d, None) /\ ds_DatasetID d = id
                 /\ In {| embedded := Some d |} l)
      \/ r = (None, Some errStateNotFound)).
Proof.
  induction l as [|[[d|]] l IH]; simpl.
  - intros [= <- <-]. auto.
  - destruct (String.eqb_spec (ds_DatasetID d) id) as [Heq|Hne].
    + intros [= <- <-]. split; [reflexivity|]. left. exists d. auto.
    + intros Hr. destruct (IH Hr) as [-> [(d' & -> & Hid & Hin)| ->]];
        split; auto. left. exists d'. auto.
  - discriminate.
Qed.

Lemma rangeDatasetStates_absent (l : list datasetStatePayload) (id : string) (w : world) :
  absent id l -> rangeDatasetStates l id w = (Done (None, Some errStateNotFound), w).
Proof.
  induction 1 as [|s l (d & Hs & Hne) _ IH]; simpl; [reflexivity|].
  rewrite Hs. destruct (String.eqb_spec (ds_DatasetID d) id); [contradiction|assumption].
Qed.

Lemma GetDatasetState_instance (e : env) (c : Client.Client) (id : string) :
  Client.GetDatasetState e c id = lookupState e (Client.getURL c "state/datasets") id.
Proof. reflexivity. Qed.

Lemma GetDatasetState_instance' (e : env) (c : flockerClient.flockerClient) (id : string) :
  flockerClient.GetDatasetState e c id
  = lookupState e (flockerClient.getURL c "state/datasets") id.
Proof. reflexivity. Qed.

Lemma CreateVolume_loop_instance (e : env) (c : Client.Client) (id : string)
      (err : option error) (fuel : nat) (w : world) :
  Client.CreateVolume_loop e c id err fuel w
  = waitLoop e (Client.getURL c "state/datasets") id err fuel w.
Proof.
  revert w; induction fuel as [|fuel IH]; intros w; [reflexivity|].
  simpl. unfold bind. rewrite GetDatasetState_instance.
  destruct (lookupState e (Client.getURL c "state/datasets") id w)
    as [[[s [err'|]]| |] w']; try reflexivity.
  destruct err'; try reflexivity.
  unfold select. destruct (timers e (selects w')); [reflexivity|apply IH].
Qed.

Lemma CreateVolume_loop_instance' (e : env) (c : flockerClient.flockerClient)
      (id : string) (err : option error) (fuel : nat) (w : world) :
  flockerClient.CreateVolume_loop e c id err fuel w
  = waitLoop e (flockerClient.getURL c "state/datasets") id err fuel w.
Proof.
  revert w; induction fuel as [|fuel IH]; intros w; [reflexivity|].
  simpl. unfold bind. rewrite GetDatasetState_instance'.
  destruct (lookupState e (flockerClient.getURL c "state/datasets") id w)
    as [[[s [err'|]]| |] w']; try reflexivity.
  destruct err'; try reflexivity.
  unfold select. destruct (timers e (selects w')); [reflexivity|apply IH].
Qed.

Section LookupState.

Variables (e : env) (url id : string) (w : world).

(** One GET is logged, then the states are searched. *)
Lemma lookupState_run :
  lookupState e url id w
  = match transport e (next w) with
    | inl err => (Done (None, lift err), logged w (GET url))
    | inr resp =>
        match decodeDatasetStates (body resp) with
        | inr states => rangeDatasetStates states id (logged w (GET url))
        | inl err => (Done (None, lift err), logged w (GET url))
        end
    end.
Proof.
  unfold lookupState, bind. rewrite get_run.
  destruct (transport e (next w)) as [err|resp]; [reflexivity|].
  destruct (decodeDatasetStates (body resp)); reflexivity.
Qed.

(** Whatever the result, the world is the one with the GET logged. *)
Lemma lookupState_world :
  snd (lookupState e url id w) = logged w (GET url).
Proof.
  rewrite lookupState_run.
  destruct (transport e (next w)) as [err|resp]; [reflexivity|].
  destruct (decodeDatasetStates (body resp)) as [err|states]; [reflexivity|].
  generalize (logged w (GET url)). intros v.
  induction states as [|[[d|]] l IH]; simpl; auto.
  destruct (String.eqb (ds_DatasetID d) id); auto.
Qed.

(** A result without error carries a state. *)
Lemma lookupState_some (w' : world) (s : option datasetState) :
  lookupState e url id w = (Done (s, None), w') -> exists d, s = Some d.
Proof.
  rewrite lookupState_run.
  destruct (transport e (next w)) as [err|resp]; [discriminate|].
  destruct (decodeDatasetStates (body resp)) as [err|states]; [discriminate|].
  intros Hr. apply rangeDatasetStates_result in Hr.
  destruct Hr as [_ [(d & Hd & _)|Hd]]; [|discriminate].
  inversion Hd; eauto.
Qed.

(** The error is [errStateNotFound] or foreign. *)
Lemma lookupState_error (w' : world) (s : option datasetState) (err : error) :
  lookupState e url id w = (Done (s, Some err), w') ->
  s = None /\ (err = errStateNotFound \/ exists l, err = foreign l).
Proof.
  rewrite lookupState_run.
  destruct (transport e (next w)) as [l|resp].
  - intros [= <- <- _]. eauto.
  - destruct (decodeDatasetStates (body resp)) as [l|states].
    + intros [= <- <- _]. eauto.
    + intros Hr. apply rangeDatasetStates_result in Hr.
      destruct Hr as [_ [(d & Hd & _)|Hd]]; [discriminate|].
      inversion Hd; auto.
Qed.

(** A list without the identifier gives [errStateNotFound]. *)
Lemma lookupState_absent (resp : Response) (states : list datasetStatePayload) :
  transport e (next w) = inr resp ->
  decodeDatasetStates (body resp) = inr states ->
  absent id states ->
  lookupState e url id w = (Done (None, Some errStateNotFound), logged w (GET url)).
Proof.
  intros Ht Hd Ha. rewrite lookupState_run, Ht, Hd.
  now apply rangeDatasetStates_absent.
Qed.

End LookupState.

(** ** [LookupVolume] *)

(** C5: [LookupVolume] returns the mount path when the lookup of the dataset
    state succeeds, [errVolumeDoesNotExist] when the lookup fails with
    [errStateNotFound], and any other error of the lookup as it is.
    [flockerClient] looks the state up under the identifier derived from the
    name. [Client] first asks for the identifier by name: an error of that
    query is returned as it is, and on success the state lookup is treated
    in the same way. *)
Theorem LookupVolume_translates
        (e : env) (c : Client.Client) (c' : flockerClient.flockerClient)
        (dir : string) (w : world) :
  (forall r w',
      flockerClient.GetDatasetState e c' (datasetIDFromName dir) w = (Done r, w') ->
      exists res,
        flockerClient.LookupVolume e c' dir w = (Done res, w') /\ translated r res)
  /\ (forall id w1 r w',
         Client.QueryDatasetIDFromName e c dir w = (Done (id, None), w1) ->
         Client.GetDatasetState e c id w1 = (Done r, w') ->
         exists res,
           Client.LookupVolume e c dir w = (Done res, w') /\ translated r res)
  /\ (forall x err w1,
         Client.QueryDatasetIDFromName e c dir w = (Done (x, Some err), w1) ->
         Client.LookupVolume e c dir w = (Done ("", Some err), w1)).
Proof.
  split; [|split].
  - intros [s err] w' Hr. unfold flockerClient.LookupVolume, bind. rewrite Hr.
    destruct err as [err|].
    + destruct err; eexists; (split; [reflexivity|]); destruct s; reflexivity.
    + destruct (lookupState_some _ _ _ _ _ _ Hr) as [d ->].
      eexists; split; reflexivity.
  - intros id w1 [s err] w' Hq Hr. unfold Client.LookupVolume, bind.
    rewrite Hq, Hr.
    destruct err as [err|].
    + destruct err; eexists; (split; [reflexivity|]); destruct s; reflexivity.
    + destruct (lookupState_some _ _ _ _ _ _ Hr) as [d ->].
      eexists; split; reflexivity.
  - intros x err w1 Hq. unfold Client.LookupVolume, bind. now rewrite Hq.
Qed.

Lemma LookupVolume_translates_witness :
  fst (flockerClient.LookupVolume Scenario.materialized Scenario.client "dir" start)
  = Done ("awesome-path", None)
  /\ fst (Client.LookupVolume Scenario.registered Scenario.client' "dir" start)
     = Done ("awesome-path", None)
  /\ fst (Client.LookupVolume Scenario.unregistered Scenario.client' "dir" start)
     = Done ("", Some errConfigurationNotFound).
Proof.
  destruct (LookupVolume_translates Scenario.materialized Scenario.client'
              Scenario.client "dir" start) as (Hf & _ & _).
  destruct (LookupVolume_translates Scenario.registered Scenario.client'
              Scenario.client "dir" start) as (_ & Hc & _).
  destruct (LookupVolume_translates Scenario.unregistered Scenario.client'
              Scenario.client "dir" start) as (_ & _ & He).
  split; [|split].
  - destruct (Hf (Some {| ds_Path := "awesome-path";
                          ds_DatasetID := "7c78121e-2056-48e9-9c8c-f6ee23187e22";
                          ds_Primary := ""; ds_MaximumSize := "" |}, None)
                (logged start (GET "http://127.0.0.1:8080/v1/state/datasets")))
      as (res & Hrun & Hres).
    + vm_compute. reflexivity.
    + rewrite Hrun. cbn in Hres. now rewrite Hres.
  - destruct (Hc "The-42-id"
                (logged start (GET "http://127.0.0.1:8080/v1/configuration/datasets"))
                (Some {| ds_Path := "awesome-path"; ds_DatasetID := "The-42-id";
                         ds_Primary := ""; ds_MaximumSize := "" |}, None)
                (logged (logged start (GET "http://127.0.0.1:8080/v1/configuration/datasets"))
                        (GET "http://127.0.0.1:8080/v1/state/datasets")))
      as (res & Hrun & Hres).
    + vm_compute. reflexivity.
    + vm_compute. reflexivity.
    + rewrite Hrun. cbn in Hres. now rewrite Hres.
  - rewrite (He "" errConfigurationNotFound
               (logged start (GET "http://127.0.0.1:8080/v1/configuration/datasets"))).
    + reflexivity.
    + vm_compute. reflexivity.
Defined.

(** A state lookup that ends with [errStateNotFound], and one that ends with
    the error of the transport. *)
Example LookupVolume_errors :
  fst (flockerClient.LookupVolume Scenario.materialized Scenario.client "other" start)
  = Done ("", Some errVolumeDoesNotExist)
  /\ fst (flockerClient.LookupVolume Scenario.unlisted Scenario.client "dir" start)
     = Done ("", Some (foreign Scenario.mismatch))
  /\ snd (flockerClient.LookupVolume Scenario.unlisted Scenario.client "dir"
            (logged start (GET "x")))
     = logged (logged start (GET "x")) (GET "http://127.0.0.1:8080/v1/state/datasets")
  /\ fst (flockerClient.LookupVolume Scenario.unlisted Scenario.client "dir"
            (logged start (GET "x")))
     = Done ("", Some (foreign Scenario.eof)).
Proof. repeat split; vm_compute; reflexivity. Qed.

(** ** The polling loop *)

Section WaitLoop.

Variables (e : env) (url id : string) (err : option error).

(** One iteration, by the result of the lookup. *)
Lemma waitLoop_step (fuel : nat) (w : world) :
  waitLoop e url id err (S fuel) w
  = match lookupState e url id w with
    | (Done (s, err'), w') =>
        match err' with
        | None =>
            match s with
            | Some d => (Done (ds_Path d, None), w')
            | None => (Panicked, w')
            end
        | Some errStateNotFound =>
            match timers e (selects w') with
            | timeoutChan => (Done ("", err), waited w')
            | tickChan => waitLoop e url id err fuel (waited w')
            end
        | Some _ => (Done ("", err'), w')
        end
    | (Panicked, w') => (Panicked, w')
    | (Starved, w') => (Starved, w')
    end.
Proof.
  simpl. unfold bind.
  destruct (lookupState e url id w) as [[[s [err'|]]| |] w']; try reflexivity.
  - destruct err'; try reflexivity.
    unfold select. destruct (timers e (selects w')); reflexivity.
  - destruct s; reflexivity.
Qed.

(** The loop only adds requests. *)
Lemma waitLoop_extends (fuel : nat) (w : world) :
  exists l, calls (snd (waitLoop e url id err fuel w)) = (calls w ++ l)%list.
Proof.
  revert w; induction fuel as [|fuel IH]; intros w.
  - exists []. simpl. now rewrite app_nil_r.
  - rewrite waitLoop_step.
    pose proof (lookupState_world e url id w) as Hw.
    destruct (lookupState e url id w) as [[[s [err'|]]| |] w']; simpl in Hw;
      subst w'; try (exists [GET url]; reflexivity).
    + destruct err'; try (exists [GET url]; reflexivity).
      simpl selects. destruct (timers e (selects w)).
      * exists [GET url]; reflexivity.
      * destruct (IH (waited (logged w (GET url)))) as [l Hl].
        exists (GET url :: l). rewrite Hl. simpl. now rewrite <- app_assoc.
    + destruct s; exists [GET url]; reflexivity.
Qed.

(** While the identifier is in no state list, the loop polls once, waits,
    and polls again at each tick. When the timeout is what the [k]-th wait
    receives, the loop returns the empty path with [err], the error
    variable of [CreateVolume], after [k + 1] polls. *)
Lemma waitLoop_timeout (k : nat) :
  forall (fuel : nat) (w : world),
    (forall i, (i <= k)%nat ->
               exists resp states,
                 transport e (next w + i) = inr resp
                 /\ decodeDatasetStates (body resp) = inr states
                 /\ absent id states) ->
    (forall i, (i < k)%nat -> timers e (selects w + i) = tickChan) ->
    timers e (selects w + k) = timeoutChan ->
    (k < fuel)%nat ->
    waitLoop e url id err fuel w
    = (Done ("", err),
       {| calls := (calls w ++ repeat (GET url) (S k))%list;
          selects := (selects w + S k)%nat |}).
Proof.
  induction k as [|k IH]; intros fuel w Hpoll Hticks Htimeout Hfuel;
    (destruct fuel as [|fuel]; [lia|]); rewrite waitLoop_step;
    destruct (Hpoll 0%nat ltac:(lia)) as (resp & states & Ht & Hd & Ha);
    rewrite Nat.add_0_r in Ht;
    rewrite (lookupState_absent _ _ _ _ _ _ Ht Hd Ha); simpl selects.
  - rewrite Nat.add_0_r in Htimeout. rewrite Htimeout.
    unfold waited, logged; simpl. now rewrite Nat.add_1_r.
  - pose proof (Hticks 0%nat ltac:(lia)) as Htick.
    rewrite Nat.add_0_r in Htick. rewrite Htick.
    rewrite IH.
    + unfold waited, logged; simpl. f_equal. f_equal.
      * now rewrite <- app_assoc.
      * lia.
    + intros i Hi. destruct (Hpoll (S i) ltac:(lia)) as (r & l & Hr & Hl & Hal).
      exists r, l. repeat split; auto.
      rewrite next_waited, next_logged.
      replace (S (next w) + i)%nat with (next w + S i)%nat by lia. exact Hr.
    + intros i Hi. simpl selects.
      replace (S (selects w) + i)%nat with (selects w + S i)%nat by lia.
      apply Hticks. lia.
    + simpl selects.
      replace (S (selects w) + k)%nat with (selects w + S k)%nat by lia.
      exact Htimeout.
    + lia.
Qed.

(** [fuel] is a budget only: a run that ends within it ends in the same way
    within any larger one. *)
Lemma waitLoop_fuel (fuel : nat) :
  forall (w w' : world) (r : outcome (string * option error)) (more : nat),
    waitLoop e url id err fuel w = (r, w') ->
    r <> Starved ->
    waitLoop e url id err (fuel + more) w = (r, w').
Proof.
  induction fuel as [|fuel IH]; intros w w' r more Hrun Hr.
  - simpl in Hrun. injection Hrun as <- _. contradiction.
  - change (S fuel + more)%nat with (S (fuel + more)).
    rewrite waitLoop_step in *.
    destruct (lookupState e url id w) as [[[s [err'|]]| |] v]; auto.
    destruct err'; auto.
    destruct (timers e (selects v)); auto.
Qed.

End WaitLoop.

(** The outcome of the loop does not depend on the URL, nor on which requests
    were made before, but on how many. *)
Lemma waitLoop_outcome (e : env) (url url' id : string) (err : option error)
      (fuel : nat) :
  forall w w' : world,
    next w = next w' -> selects w = selects w' ->
    fst (waitLoop e url id err fuel w) = fst (waitLoop e url' id err fuel w').
Proof.
  induction fuel as [|fuel IH]; intros w w' Hn Hs; [reflexivity|].
  rewrite !waitLoop_step, !lookupState_run, <- Hn.
  destruct (transport e (next w)) as [l|resp]; [reflexivity|].
  destruct (decodeDatasetStates (body resp)) as [l|states]; [reflexivity|].
  assert (Hn' : next (logged w (GET url)) = next (logged w' (GET url')))
    by (now rewrite !next_logged, Hn).
  assert (Hs' : selects (logged w (GET url)) = selects (logged w' (GET url')))
    by assumption.
  revert Hn' Hs'.
  generalize (logged w (GET url)) (logged w' (GET url')). intros v v' Hn' Hs'.
  induction states as [|[[d|]] states IHs]; simpl.
  - rewrite <- Hs'. destruct (timers e (selects v)); [reflexivity|].
    apply IH; [exact Hn'|simpl; now rewrite Hs'].
  - destruct (String.eqb (ds_DatasetID d) id); [reflexivity|exact IHs].
  - reflexivity.
Qed.

(** ** URLs *)

Lemma string_app_inv_head (p a b : string) : p ++ a = p ++ b -> a = b.
Proof.
  induction p as [|ch p IH]; simpl; [auto|]. intros [= Heq]. auto.
Qed.

Lemma formatURL_path_inj (schema host : string) (port : Z) (version p q : string) :
  formatURL schema host port version p = formatURL schema host port version q ->
  p = q.
Proof.
  unfold formatURL. intros Heq.
  repeat (apply string_app_inv_head in Heq). exact Heq.
Qed.

(** ** [CreateVolume], step by step *)

Section CreateVolume.

Variables (e : env) (dir : string) (fuel : nat) (w : world).

Lemma LookupPrimaryUUID_run (c : Client.Client) :
  Client.LookupPrimaryUUID e c w
  = (Done (primaryOf e (Client.clientIP c) w),
     logged w (GET (Client.getURL c "state/nodes"))).
Proof.
  unfold Client.LookupPrimaryUUID, bind, primaryOf. rewrite get_run.
  destruct (transport e (next w)) as [err|resp]; [reflexivity|].
  destruct (decodeNodeStates (body resp)); reflexivity.
Qed.

Lemma findPrimaryUUID_run (c : flockerClient.flockerClient) :
  flockerClient.findPrimaryUUID e c w
  = (Done (primaryOf e (flockerClient.host c) w),
     logged w (GET (flockerClient.getURL c "state/nodes"))).
Proof.
  unfold flockerClient.findPrimaryUUID, bind, primaryOf. rewrite get_run.
  destruct (transport e (next w)) as [err|resp]; [reflexivity|].
  destruct (decodeNodeStates (body resp)); reflexivity.
Qed.

(** [Client.CreateVolume]: the node lookup, the creation request, the checks
    of the status, the decoding of the response, the loop. *)
Lemma CreateVolume_run (c : Client.Client) :
  Client.CreateVolume e c dir fuel w
  = let w1 := logged w (GET (Client.getURL c "state/nodes")) in
    match primaryOf e (Client.clientIP c) w with
    | (primary, None) =>
        let w2 := logged w1 (creation c primary dir) in
        match transport e (S (next w)) with
        | inl err => (Done ("", lift err), w2)
        | inr resp =>
            if StatusCode resp =? StatusConflict
            then (Done ("", Some errVolumeAlreadyExists), w2)
            else if StatusCode resp >=? 300
            then (Done ("", Some (creationError (StatusCode resp))), w2)
            else
              match decodeConfiguration (body resp) with
              | inl err => (Done ("", lift err), w2)
              | inr p =>
                  waitLoop e (Client.getURL c "state/datasets") (DatasetID p)
                           None fuel w2
              end
        end
    | (_, Some err) => (Done ("", Some err), w1)
    end.
Proof.
  unfold Client.CreateVolume, bind. rewrite LookupPrimaryUUID_run.
  destruct (primaryOf e (Client.clientIP c) w) as [primary [err|]]; [reflexivity|].
  rewrite post_run, next_logged. cbv zeta.
  destruct (transport e (S (next w))) as [err|resp]; [reflexivity|].
  destruct (StatusCode resp =? StatusConflict); [reflexivity|].
  destruct (StatusCode resp >=? 300); [reflexivity|].
  destruct (decodeConfiguration (body resp)) as [err|p]; [reflexivity|].
  apply CreateVolume_loop_instance.
Qed.

(** [flockerClient.CreateVolume]: the same without the decoding; the loop
    waits for the identifier derived from the name. *)
Lemma CreateVolume_run' (c : flockerClient.flockerClient) :
  flockerClient.CreateVolume e c dir fuel w
  = let w1 := logged w (GET (flockerClient.getURL c "state/nodes")) in
    match primaryOf e (flockerClient.host c) w with
    | (primary, None) =>
        let w2 := logged w1 (creation' c primary dir) in
        match transport e (S (next w)) with
        | inl err => (Done ("", lift err), w2)
        | inr resp =>
            if StatusCode resp =? StatusConflict
            then (Done ("", Some errVolumeAlreadyExists), w2)
            else if StatusCode resp >=? 300
            then (Done ("", Some (creationError (StatusCode resp))), w2)
            else
              waitLoop e (flockerClient.getURL c "state/datasets")
                       (datasetIDFromName dir) None fuel w2
        end
    | (_, Some err) => (Done ("", Some err), w1)
    end.
Proof.
  unfold flockerClient.CreateVolume, bind. rewrite findPrimaryUUID_run.
  destruct (primaryOf e (flockerClient.host c) w) as [primary [err|]]; [reflexivity|].
  rewrite post_run, next_logged. cbv zeta.
  destruct (transport e (S (next w))) as [err|resp]; [reflexivity|].
  destruct (StatusCode resp =? StatusConflict); [reflexivity|].
  destruct (StatusCode resp >=? 300); [reflexivity|].
  apply CreateVolume_loop_instance'.
Qed.

End CreateVolume.

Lemma added_of (w w' : world) (l : list Request) :
  calls w' = (calls w ++ l)%list -> added w w' = l.
Proof.
  intros Heq. unfold added, next. rewrite Heq.
  rewrite skipn_app, skipn_all, Nat.sub_diag. reflexivity.
Qed.

Lemma added_logged2 (w : world) (r1 r2 : Request) :
  added w (logged (logged w r1) r2) = [r1; r2].
Proof.
  unfold added, logged, next; simpl.
  rewrite <- app_assoc. rewrite skipn_app, skipn_all, Nat.sub_diag. reflexivity.
Qed.

(** ** A creation answered with 409 *)

(** C1, as the code has it: when the creation POST of [CreateVolume] is
    answered with the status 409 (conflict), [CreateVolume] returns the empty
    string together with the error [errVolumeAlreadyExists], in both
    revisions. It makes two requests, the GET of the node states and the
    creation POST; it makes no request to the dataset-state endpoint and
    waits on no timer. *)
Theorem CreateVolume_conflict_is_error
        (e : env) (c : Client.Client) (c' : flockerClient.flockerClient)
        (dir : string) (fuel : nat) (w : world)
        (primary primary' : string) (resp : Response) :
  fst (Client.LookupPrimaryUUID e c w) = Done (primary, None) ->
  fst (flockerClient.findPrimaryUUID e c' w) = Done (primary', None) ->
  transport e (S (next w)) = inr resp ->
  StatusCode resp = StatusConflict ->
  (fst (Client.CreateVolume e c dir fuel w) = Done ("", Some errVolumeAlreadyExists)
   /\ added w (snd (Client.CreateVolume e c dir fuel w))
      = [GET (Client.getURL c "state/nodes"); creation c primary dir]
   /\ (forall r, In r (added w (snd (Client.CreateVolume e c dir fuel w))) ->
                 URL r <> Client.getURL c "state/datasets")
   /\ selects (snd (Client.CreateVolume e c dir fuel w)) = selects w)
  /\ (fst (flockerClient.CreateVolume e c' dir fuel w)
      = Done ("", Some errVolumeAlreadyExists)
      /\ added w (snd (flockerClient.CreateVolume e c' dir fuel w))
         = [GET (flockerClient.getURL c' "state/nodes"); creation' c' primary' dir]
      /\ (forall r, In r (added w (snd (flockerClient.CreateVolume e c' dir fuel w))) ->
                    URL r <> flockerClient.getURL c' "state/datasets")
      /\ selects (snd (flockerClient.CreateVolume e c' dir fuel w)) = selects w).
Proof.
  intros Hp Hp' Ht Hs.
  rewrite LookupPrimaryUUID_run in Hp. rewrite findPrimaryUUID_run in Hp'.
  simpl in Hp, Hp'. injection Hp as Hp. injection Hp' as Hp'.
  rewrite CreateVolume_run, CreateVolume_run', Hp, Hp', Ht, Hs. simpl.
  rewrite !added_logged2.
  split; (split; [reflexivity|split; [reflexivity|split; [|reflexivity]]]).
  - intros r [<-|[<-|[]]]; simpl; intros Heq;
      apply formatURL_path_inj in Heq; discriminate.
  - intros r [<-|[<-|[]]]; simpl; intros Heq;
      apply formatURL_path_inj in Heq; discriminate.
Qed.

Lemma CreateVolume_conflict_is_error_witness :
  fst (Client.CreateVolume Scenario.conflict Scenario.client' "dir" 1 start)
  = Done ("", Some errVolumeAlreadyExists)
  /\ fst (flockerClient.CreateVolume Scenario.conflict Scenario.client "dir" 1 start)
     = Done ("", Some errVolumeAlreadyExists).
Proof.
  destruct (CreateVolume_conflict_is_error
              Scenario.conflict Scenario.client' Scenario.client "dir" 1 start
              "A-B-C-D" "A-B-C-D" {| StatusCode := 409; body := Scenario.noBody |}
              eq_refl eq_refl eq_refl eq_refl)
    as ((Hc & _) & (Hf & _)).
  split; assumption.
Defined.

(** At Scenario C the claim of C1 fails: the creation is answered with 409 and
    the result is not the identifier derived from the name without error. *)
Lemma CreateVolume_conflict_counterexample :
  transport Scenario.conflict 1 = Scenario.respond 409 Scenario.noBody
  /\ fst (flockerClient.CreateVolume Scenario.conflict Scenario.client "dir" 1 start)
     = Done ("", Some errVolumeAlreadyExists)
  /\ fst (flockerClient.CreateVolume Scenario.conflict Scenario.client "dir" 1 start)
     <> Done (datasetIDFromName "dir", None)
  /\ fst (Client.CreateVolume Scenario.conflict Scenario.client' "dir" 1 start)
     <> Done (datasetIDFromName "dir", None).
Proof.
  repeat split; try (vm_compute; reflexivity); vm_compute; discriminate.
Qed.

(** ** The creation request *)

Lemma nth_error_second (l rest : list Request) (a b : Request) :
  nth_error (l ++ a :: b :: rest) (S (List.length l)) = Some b.
Proof.
  rewrite nth_error_app2 by lia.
  replace (S (List.length l) - List.length l)%nat with 1%nat by lia. reflexivity.
Qed.

Lemma logged2_calls (w : world) (a b : Request) :
  calls (logged (logged w a) b) = (calls w ++ a :: b :: [])%list.
Proof. unfold logged; simpl. now rewrite <- app_assoc. Qed.

Section Creation.

Variables (e : env) (dir : string) (fuel : nat) (w : world) (primary : string).

(** Once the primary is found, the requests of a run are the GET of the
    nodes, the creation POST, and what the loop adds. *)
Lemma CreateVolume_calls (c : Client.Client) :
  primaryOf e (Client.clientIP c) w = (primary, None) ->
  exists l, calls (snd (Client.CreateVolume e c dir fuel w))
            = (calls w ++ GET (Client.getURL c "state/nodes")
                     :: creation c primary dir :: l)%list.
Proof.
  intros Hp. rewrite CreateVolume_run, Hp. cbv zeta.
  destruct (transport e (S (next w))) as [err|resp];
    [exists []; apply logged2_calls|].
  destruct (StatusCode resp =? StatusConflict); [exists []; apply logged2_calls|].
  destruct (StatusCode resp >=? 300); [exists []; apply logged2_calls|].
  destruct (decodeConfiguration (body resp)) as [err|p];
    [exists []; apply logged2_calls|].
  match goal with |- context [waitLoop ?e ?u ?i ?r ?f ?v] =>
    destruct (waitLoop_extends e u i r f v) as [l Hl] end.
  exists l. rewrite Hl, logged2_calls, <- app_assoc. reflexivity.
Qed.

Lemma CreateVolume_calls' (c : flockerClient.flockerClient) :
  primaryOf e (flockerClient.host c) w = (primary, None) ->
  exists l, calls (snd (flockerClient.CreateVolume e c dir fuel w))
            = (calls w ++ GET (flockerClient.getURL c "state/nodes")
                     :: creation' c primary dir :: l)%list.
Proof.
  intros Hp. rewrite CreateVolume_run', Hp. cbv zeta.
  destruct (transport e (S (next w))) as [err|resp];
    [exists []; apply logged2_calls|].
  destruct (StatusCode resp =? StatusConflict); [exists []; apply logged2_calls|].
  destruct (StatusCode resp >=? 300); [exists []; apply logged2_calls|].
  match goal with |- context [waitLoop ?e ?u ?i ?r ?f ?v] =>
    destruct (waitLoop_extends e u i r f v) as [l Hl] end.
  exists l. rewrite Hl, logged2_calls, <- app_assoc. reflexivity.
Qed.

End Creation.

(** In the run of Scenario C with [Client], the claim of C4 fails: the only
    POST carries an empty dataset id, and the identifier derived from the name
    is not empty. *)
Lemma CreateVolume_creation_payload_counterexample :
  calls (snd (Client.CreateVolume Scenario.conflict Scenario.client' "dir" 1 start))
  = [ GET "http://127.0.0.1:8080/v1/state/nodes";
      POST "http://127.0.0.1:8080/v1/configuration/datasets"
           (configurationBody
              {| Primary := "A-B-C-D"; DatasetID := "";
                 MaximumSize := "107374182400";
                 Metadata := {| Name := "dir" |} |}) ]
  /\ datasetIDFromName "dir" <> "".
Proof.
  split; [vm_compute; reflexivity|vm_compute; discriminate].
Qed.

(** ** The deadline *)

(** C2, what the code does: when the creation is accepted and no state list
    ever has the identifier, [CreateVolume] polls at each tick and stops at
    the [select] that receives from the timeout channel, after [k + 1] polls
    for [k] ticks. It then returns [err], which in the [select] is the error
    variable of the function, nil since the POST succeeded, and not the
    [errStateNotFound] of the last poll: the result is the empty path with a
    nil error. *)
Theorem CreateVolume_timeout_returns_nil_error
        (e : env) (c : Client.Client) (c' : flockerClient.flockerClient)
        (dir : string) (fuel k : nat) (w : world)
        (primary primary' : string) (resp : Response) (p : configurationPayload) :
  fst (Client.LookupPrimaryUUID e c w) = Done (primary, None) ->
  fst (flockerClient.findPrimaryUUID e c' w) = Done (primary', None) ->
  transport e (S (next w)) = inr resp ->
  StatusCode resp <> StatusConflict ->
  StatusCode resp < 300 ->
  decodeConfiguration (body resp) = inr p ->
  (forall i, (i <= k)%nat ->
             exists r states,
               transport e (S (S (next w)) + i) = inr r
               /\ decodeDatasetStates (body r) = inr states
               /\ absent (datasetIDFromName dir) states
               /\ absent (DatasetID p) states) ->
  (forall i, (i < k)%nat -> timers e (selects w + i) = tickChan) ->
  timers e (selects w + k) = timeoutChan ->
  (k < fuel)%nat ->
  (fst (flockerClient.CreateVolume e c' dir fuel w) = Done ("", None)
   /\ added w (snd (flockerClient.CreateVolume e c' dir fuel w))
      = (GET (flockerClient.getURL c' "state/nodes")
           :: creation' c' primary' dir
           :: repeat (GET (flockerClient.getURL c' "state/datasets")) (S k))%list)
  /\ (fst (Client.CreateVolume e c dir fuel w) = Done ("", None)
      /\ added w (snd (Client.CreateVolume e c dir fuel w))
         = (GET (Client.getURL c "state/nodes")
              :: creation c primary dir
              :: repeat (GET (Client.getURL c "state/datasets")) (S k))%list).
Proof.
  intros Hp Hp' Ht Hs1 Hs2 Hd Hpoll Hticks Htimeout Hfuel.
  rewrite LookupPrimaryUUID_run in Hp. rewrite findPrimaryUUID_run in Hp'.
  simpl in Hp, Hp'. injection Hp as Hp. injection Hp' as Hp'.
  rewrite CreateVolume_run, CreateVolume_run', Hp, Hp', Ht, Hd. cbv zeta.
  destruct (Z.eqb_spec (StatusCode resp) StatusConflict) as [|_]; [contradiction|].
  destruct (Z.geb_spec (StatusCode resp) 300) as [|_]; [lia|].
  rewrite !(waitLoop_timeout e _ _ None k); auto;
    try (intros i Hi; rewrite !next_logged;
         destruct (Hpoll i Hi) as (r & states & Hr & Hst & Ha & Ha'); eauto).
  repeat split; apply added_of; cbn [snd calls];
    rewrite logged2_calls, <- app_assoc; reflexivity.
Qed.

Lemma CreateVolume_timeout_returns_nil_error_witness :
  fst (flockerClient.CreateVolume Scenario.neverReady Scenario.client "dir" 3 start)
  = Done ("", None)
  /\ fst (Client.CreateVolume Scenario.neverReady Scenario.client' "dir" 3 start)
     = Done ("", None).
Proof.
  assert (Hpoll : forall i, (i <= 2)%nat ->
            exists r states,
              transport Scenario.neverReady (S (S (next start)) + i) = inr r
              /\ decodeDatasetStates (body r) = inr states
              /\ absent (datasetIDFromName "dir") states
              /\ absent "service-made-id" states).
  { intros i _. exists {| StatusCode := 200; body := Scenario.statesBody [] |}, [].
    split; [|split; [reflexivity|split; constructor]].
    destruct i as [|[|[|i]]]; reflexivity. }
  assert (Hticks : forall i, (i < 2)%nat ->
            timers Scenario.neverReady (selects start + i) = tickChan).
  { intros [|[|i]] Hi; [reflexivity|reflexivity|lia]. }
  destruct (CreateVolume_timeout_returns_nil_error
              Scenario.neverReady Scenario.client' Scenario.client "dir" 3 2 start
              "A-B-C-D" "A-B-C-D"
              {| StatusCode := 200;
                 body := Scenario.configurationBody
                           (Scenario.configuration "service-made-id" "dir") |}
              (Scenario.configuration "service-made-id" "dir")
              eq_refl eq_refl eq_refl ltac:(discriminate) eq_refl eq_refl
              Hpoll Hticks eq_refl ltac:(lia))
    as ((Hf & _) & (Hc & _)).
  split; assumption.
Defined.

(** Scenarios D and E. In D the third poll finds the state and two waits
    received ticks. In E, with the timeout at the first wait, the result is
    the empty path without error. *)
Example CreateVolume_scenarios :
  flockerClient.CreateVolume Scenario.happy Scenario.client "dir" 3 start
  = (Done ("P", None),
     {| calls := [ GET "http://127.0.0.1:8080/v1/state/nodes";
                   creation' Scenario.client "A-B-C-D" "dir";
                   GET "http://127.0.0.1:8080/v1/state/datasets";
                   GET "http://127.0.0.1:8080/v1/state/datasets";
                   GET "http://127.0.0.1:8080/v1/state/datasets" ];
        selects := 2 |})
  /\ fst (flockerClient.CreateVolume Scenario.happy Scenario.client "dir" 2 start)
     = Starved
  /\ fst (flockerClient.CreateVolume Scenario.neverReady Scenario.client "dir" 9 start)
     = Done ("", None).
Proof. split; [|split]; vm_compute; reflexivity. Qed.

(** ** [UpdateDatasetPrimary] *)

(** C7, on the code: [UpdateDatasetPrimary] makes one POST to the
    configuration of the dataset and neither polls nor waits.
    [flockerClient.UpdateDatasetPrimary] returns [errUpdatingDataset] for a
    status outside [200, 300) and nil for a status inside.
    [Client.UpdateDatasetPrimary] tests [StatusCode >= 300] only: it returns
    [errUpdatingDataset] for a status of 300 or more and nil for every status
    below 300, those below 200 too. *)
Theorem UpdateDatasetPrimary_status
        (e : env) (c : Client.Client) (c' : flockerClient.flockerClient)
        (name newPrimary : string) (w : world) (resp : Response) :
  transport e (next w) = inr resp ->
  flockerClient.UpdateDatasetPrimary e c' name newPrimary w
  = (Done (if (200 <=? StatusCode resp) && (StatusCode resp <? 300)
           then None else Some errUpdatingDataset),
     logged w (POST (flockerClient.getURL
                       c' ("configuration/datasets/" ++ datasetIDFromName name))
                    (configurationBody
                       {| Primary := newPrimary; DatasetID := ""; MaximumSize := "";
                          Metadata := {| Name := "" |} |})))
  /\ Client.UpdateDatasetPrimary e c name newPrimary w
     = (Done (if StatusCode resp <? 300 then None else Some errUpdatingDataset),
        logged w (POST (Client.getURL c ("configuration/datasets/" ++ name))
                       (primaryBody newPrimary))).
Proof.
  intros Ht.
  unfold flockerClient.UpdateDatasetPrimary, Client.UpdateDatasetPrimary, bind.
  rewrite !post_run, Ht. split.
  - destruct (Z.leb_spec 200 (StatusCode resp)), (Z.ltb_spec (StatusCode resp) 200),
      (Z.ltb_spec (StatusCode resp) 300), (Z.geb_spec (StatusCode resp) 300);
      try lia; reflexivity.
  - destruct (Z.ltb_spec (StatusCode resp) 300), (Z.geb_spec (StatusCode resp) 300);
      try lia; reflexivity.
Qed.

(** The status 101: an error for [flockerClient], a success for [Client]. *)
Lemma UpdateDatasetPrimary_status_witness :
  fst (flockerClient.UpdateDatasetPrimary
         (Scenario.answered 101) Scenario.client "dir" "P2" start)
  = Done (Some errUpdatingDataset)
  /\ fst (Client.UpdateDatasetPrimary
            (Scenario.answered 101) Scenario.client' "dir" "P2" start)
     = Done None.
Proof.
  destruct (UpdateDatasetPrimary_status
              (Scenario.answered 101) Scenario.client' Scenario.client
              "dir" "P2" start
              {| StatusCode := 101; body := Scenario.noBody |} eq_refl)
    as [Hf Hc].
  rewrite Hf, Hc. split; reflexivity.
Defined.

(** ** The two revisions of [CreateVolume] *)

(** C10, as far as it holds: the two revisions of [CreateVolume] return the
    same result on the same responses and timer events when the address that
    [Client] looks for among the nodes ([clientIP]) is the one that
    [flockerClient] looks for ([host]), and the response to an accepted
    creation decodes to a configuration whose dataset id is the identifier
    derived from the name. *)
Theorem CreateVolume_revisions_agree
        (e : env) (c : Client.Client) (c' : flockerClient.flockerClient)
        (dir : string) (fuel : nat) (w : world) :
  Client.clientIP c = flockerClient.host c' ->
  (forall resp,
      transport e (S (next w)) = inr resp ->
      StatusCode resp <> StatusConflict ->
      StatusCode resp < 300 ->
      exists p, decodeConfiguration (body resp) = inr p
                /\ DatasetID p = datasetIDFromName dir) ->
  fst (Client.CreateVolume e c dir fuel w)
  = fst (flockerClient.CreateVolume e c' dir fuel w).
Proof.
  intros Haddr Hbody.
  rewrite CreateVolume_run, CreateVolume_run', Haddr. cbv zeta.
  destruct (primaryOf e (flockerClient.host c') w) as [primary [err|]];
    [reflexivity|].
  destruct (transport e (S (next w))) as [err|resp]; [reflexivity|].
  specialize (Hbody resp eq_refl).
  destruct (Z.eqb_spec (StatusCode resp) StatusConflict) as [|Hs1]; [reflexivity|].
  destruct (Z.geb_spec (StatusCode resp) 300) as [|Hs2]; [reflexivity|].
  destruct (Hbody Hs1 Hs2) as (p & -> & ->).
  apply waitLoop_outcome; unfold logged, next; simpl;
    [now rewrite !length_app|reflexivity].
Qed.

Lemma CreateVolume_revisions_agree_witness :
  fst (Client.CreateVolume Scenario.happy Scenario.client' "dir" 3 start)
  = fst (flockerClient.CreateVolume Scenario.happy Scenario.client "dir" 3 start).
Proof.
  apply (CreateVolume_revisions_agree
           Scenario.happy Scenario.client' Scenario.client "dir" 3 start eq_refl).
  intros resp Ht _ _.
  exists (Scenario.configuration (datasetIDFromName "dir") "dir").
  change (transport Scenario.happy (S (next start))) with Scenario.accepted in Ht.
  unfold Scenario.accepted, Scenario.respond in Ht.
  injection Ht as <-. split; reflexivity.
Defined.

(** The claim of C10 fails on three runs in which [clientIP] and [host] are
    the same address or the creation is accepted: the service answers the
    creation with an identifier of its own; it answers without a body; and the
    node list has the host of the control service, where the client is not. *)
Lemma CreateVolume_revisions_counterexample :
  fst (Client.CreateVolume Scenario.assigned Scenario.client' "dir" 3 start)
  <> fst (flockerClient.CreateVolume Scenario.assigned Scenario.client "dir" 3 start)
  /\
  (fst (Client.CreateVolume Scenario.assigned Scenario.client' "dir" 3 start)
   = Done ("/flocker/dir", None)
   /\ fst (flockerClient.CreateVolume Scenario.assigned Scenario.client "dir" 3 start)
      = Done ("", None))
  /\ (fst (Client.CreateVolume Scenario.bodiless Scenario.client' "dir" 3 start)
      = Done ("", Some (foreign Scenario.eof))
      /\ fst (flockerClient.CreateVolume Scenario.bodiless Scenario.client "dir" 3 start)
         = Done ("/flocker/dir", None))
  /\ (fst (Client.CreateVolume Scenario.happy Scenario.remote "dir" 3 start)
      = Done ("", Some errStateNotFound)
      /\ fst (flockerClient.CreateVolume Scenario.happy Scenario.client "dir" 3 start)
         = Done ("P", None)).
Proof.
  split; [vm_compute; discriminate|].
  split; [|split]; split; vm_compute; reflexivity.
Qed.

(** * Further properties of the client *)

(** ** [GetDatasetState] *)

Lemma rangeDatasetStates_found (before after : list datasetStatePayload)
      (d : datasetState) (id : string) (w : world) :
  absent id before ->
  ds_DatasetID d = id ->
  rangeDatasetStates (before ++ {| embedded := Some d |} :: after) id w
  = (Done (Some d, None), w).
Proof.
  intros Hb Hd. induction Hb as [|s l (d' & Hs & Hne) _ IH]; simpl.
  - rewrite Hd, String.eqb_refl. reflexivity.
  - rewrite Hs. destruct (String.eqb_spec (ds_DatasetID d') id); [contradiction|exact IH].
Qed.

Lemma rangeDatasetStates_nil (before after : list datasetStatePayload)
      (id : string) (w : world) :
  absent id before ->
  rangeDatasetStates (before ++ {| embedded := None |} :: after) id w = (Panicked, w).
Proof.
  intros Hb. induction Hb as [|s l (d' & Hs & Hne) _ IH]; simpl; [reflexivity|].
  rewrite Hs. destruct (String.eqb_spec (ds_DatasetID d') id); [contradiction|exact IH].
Qed.

(** On a list whose elements all carry a state, the search ends as
    [firstState] says. *)
Lemma rangeDatasetStates_first (l : list datasetStatePayload) (id : string) (w : world) :
  Forall (fun s => embedded s <> None) l ->
  exists r, rangeDatasetStates l id w = (Done r, w) /\ firstState l id r.
Proof.
  induction 1 as [|[[d|]] l Hs _ IH]; simpl.
  - eexists; split; [reflexivity|]. right. split; [constructor|reflexivity].
  - destruct (String.eqb_spec (ds_DatasetID d) id) as [Heq|Hne].
    + eexists; split; [reflexivity|]. left. exists [], d, l.
      repeat split; auto. constructor.
    + destruct IH as (r & Hr & [(before & d' & after & -> & Hid & Hb & ->)|(Ha & ->)]).
      * exists (Some d', None). split; [exact Hr|]. left.
        exists ({| embedded := Some d |} :: before), d', after.
        repeat split; auto. constructor; [exists d; auto|assumption].
      * exists (None, Some errStateNotFound). split; [exact Hr|]. right.
        split; [|reflexivity]. constructor; [exists d; auto|assumption].
  - contradiction.
Qed.

(** X1: [GetDatasetState], in both revisions, makes one GET to the
    dataset-state endpoint. An error of the transport or of the decoder is
    returned as it is, with a nil state. On a decoded list whose elements all
    carry a state, the result is the first state, in list order, whose dataset
    id is the requested one, and [errStateNotFound] with a nil state when
    there is none. *)
Theorem GetDatasetState_first_state
        (e : env) (c : Client.Client) (c' : flockerClient.flockerClient)
        (id : string) (w : world) :
  (forall err,
      transport e (next w) = inl err ->
      Client.GetDatasetState e c id w
      = (Done (None, Some (foreign err)),
         logged w (GET (Client.getURL c "state/datasets")))
      /\ flockerClient.GetDatasetState e c' id w
         = (Done (None, Some (foreign err)),
            logged w (GET (flockerClient.getURL c' "state/datasets"))))
  /\ (forall resp err,
         transport e (next w) = inr resp ->
         decodeDatasetStates (body resp) = inl err ->
         Client.GetDatasetState e c id w
         = (Done (None, Some (foreign err)),
            logged w (GET (Client.getURL c "state/datasets")))
         /\ flockerClient.GetDatasetState e c' id w
            = (Done (None, Some (foreign err)),
               logged w (GET (flockerClient.getURL c' "state/datasets"))))
  /\ (forall resp states,
         transport e (next w) = inr resp ->
         decodeDatasetStates (body resp) = inr states ->
         Forall (fun s => embedded s <> None) states ->
         exists r,
           firstState states id r
           /\ Client.GetDatasetState e c id w
              = (Done r, logged w (GET (Client.getURL c "state/datasets")))
           /\ flockerClient.GetDatasetState e c' id w
              = (Done r, logged w (GET (flockerClient.getURL c' "state/datasets")))).
Proof.
  rewrite GetDatasetState_instance, GetDatasetState_instance', !lookupState_run.
  split; [|split].
  - intros err ->. split; reflexivity.
  - intros resp err -> ->. split; reflexivity.
  - intros resp states -> -> Hall.
    destruct (rangeDatasetStates_first states id
                (logged w (GET (Client.getURL c "state/datasets"))) Hall)
      as (r & Hr & Hfirst).
    destruct (rangeDatasetStates_first states id
                (logged w (GET (flockerClient.getURL c' "state/datasets"))) Hall)
      as (r' & Hr' & Hfirst').
    exists r. repeat split; auto. rewrite Hr'. f_equal. f_equal.
    destruct Hfirst as [(b1 & d1 & a1 & E1 & I1 & B1 & ->)|(A1 & ->)];
      destruct Hfirst' as [(b2 & d2 & a2 & E2 & I2 & B2 & ->)|(A2 & ->)]; auto.
    + pose proof (rangeDatasetStates_found b1 a1 d1 id w B1 I1) as F1.
      pose proof (rangeDatasetStates_found b2 a2 d2 id w B2 I2) as F2.
      rewrite <- E1 in F1. rewrite <- E2 in F2. congruence.
    + pose proof (rangeDatasetStates_found b1 a1 d1 id w B1 I1) as F1.
      rewrite <- E1, (rangeDatasetStates_absent _ _ w A2) in F1. discriminate.
    + pose proof (rangeDatasetStates_found b2 a2 d2 id w B2 I2) as F2.
      rewrite <- E2, (rangeDatasetStates_absent _ _ w A1) in F2. discriminate.
Qed.

Lemma GetDatasetState_first_state_witness :
  fst (flockerClient.GetDatasetState Edge.twice Scenario.client "id-1" start)
  = Done (Some {| ds_Path := "/flocker/1"; ds_DatasetID := "id-1";
                  ds_Primary := ""; ds_MaximumSize := "" |}, None)
  /\ fst (Client.GetDatasetState Edge.twice Scenario.client' "id-9"
            (logged start (GET "x")))
     = Done (None, Some (foreign Scenario.eof)).
Proof.
  destruct (GetDatasetState_first_state Edge.twice Scenario.client' Scenario.client
              "id-1" start) as (_ & _ & Hlist).
  destruct (GetDatasetState_first_state Edge.twice Scenario.client' Scenario.client
              "id-9" (logged start (GET "x"))) as (Herr & _ & _).
  split.
  - destruct (Hlist _ _ eq_refl eq_refl) as (r & _ & _ & Hrun).
    + repeat constructor; discriminate.
    + rewrite Hrun. vm_compute in Hrun. injection Hrun as <-. reflexivity.
  - destruct (Herr _ eq_refl) as [-> _]. reflexivity.
Defined.

(** X2: a decoded state list may hold an element whose embedded pointer is
    nil. When such an element comes before any state of the requested
    dataset, reading its [DatasetID] panics: [GetDatasetState] does not
    return, in either revision, after its one GET. *)
Theorem GetDatasetState_nil_state_panics
        (e : env) (c : Client.Client) (c' : flockerClient.flockerClient)
        (id : string) (w : world) (resp : Response)
        (before after : list datasetStatePayload) :
  transport e (next w) = inr resp ->
  decodeDatasetStates (body resp)
  = inr (before ++ {| embedded := None |} :: after)%list ->
  absent id before ->
  Client.GetDatasetState e c id w
  = (Panicked, logged w (GET (Client.getURL c "state/datasets")))
  /\ flockerClient.GetDatasetState e c' id w
     = (Panicked, logged w (GET (flockerClient.getURL c' "state/datasets"))).
Proof.
  intros Ht Hd Hb.
  rewrite GetDatasetState_instance, GetDatasetState_instance', !lookupState_run, Ht, Hd.
  split; now apply rangeDatasetStates_nil.
Qed.

Lemma GetDatasetState_nil_state_panics_witness :
  fst (Client.GetDatasetState Edge.hollow Scenario.client' "id-1" start) = Panicked
  /\ fst (flockerClient.GetDatasetState Edge.hollow Scenario.client "id-1" start)
     = Panicked.
Proof.
  destruct (GetDatasetState_nil_state_panics
              Edge.hollow Scenario.client' Scenario.client "id-1" start
              {| StatusCode := 200;
                 body := Scenario.statesBody
                           [Scenario.dataset "id-0" "/flocker/0";
                            {| embedded := None |};
                            Scenario.dataset "id-1" "/flocker/1"] |}
              [Scenario.dataset "id-0" "/flocker/0"]
              [Scenario.dataset "id-1" "/flocker/1"]
              eq_refl eq_refl) as [Hc Hf].
  - repeat constructor. eexists; split; [reflexivity|discriminate].
  - rewrite Hc, Hf. split; reflexivity.
Defined.

(** ** The errors of [LookupVolume] *)

Lemma rangeConfigurations_error (l : list configurationPayload) (name id : string)
      (err : error) :
  rangeConfigurations l name = (id, Some err) ->
  id = "" /\ err = errConfigurationNotFound.
Proof.
  destruct (rangeConfigurations_first l name)
    as [(before & r & after & _ & _ & _ & ->)|(_ & ->)].
  - discriminate.
  - intros [= <- <-]. auto.
Qed.

Lemma QueryDatasetIDFromName_error (e : env) (c : Client.Client) (v id : string)
      (err : error) (w w' : world) :
  Client.QueryDatasetIDFromName e c v w = (Done (id, Some err), w') ->
  id = "" /\ (err = errConfigurationNotFound \/ exists l, err = foreign l).
Proof.
  unfold Client.QueryDatasetIDFromName, bind. rewrite get_run.
  destruct (transport e (next w)) as [l|resp].
  - intros [= <- <- _]. eauto.
  - destruct (decodeConfigurations (body resp)) as [l|cfgs].
    + intros [= <- <- _]. eauto.
    + unfold ret. intros [= Hr _].
      apply rangeConfigurations_error in Hr as [-> ->]. auto.
Qed.

(** X3: an error of [LookupVolume] comes with the empty path and is never
    [errStateNotFound]. In [flockerClient] it is [errVolumeDoesNotExist] or an
    error of the transport or the decoder; in [Client] it may also be
    [errConfigurationNotFound], from the query by name. *)
Theorem LookupVolume_errors_are_translated
        (e : env) (c : Client.Client) (c' : flockerClient.flockerClient)
        (dir path : string) (err : error) (w : world) :
  (fst (flockerClient.LookupVolume e c' dir w) = Done (path, Some err) ->
   path = ""
   /\ err <> errStateNotFound
   /\ (err = errVolumeDoesNotExist \/ exists l, err = foreign l))
  /\ (fst (Client.LookupVolume e c dir w) = Done (path, Some err) ->
      path = ""
      /\ err <> errStateNotFound
      /\ (err = errVolumeDoesNotExist \/ err = errConfigurationNotFound
          \/ exists l, err = foreign l)).
Proof.
  split.
  - unfold flockerClient.LookupVolume, bind.
    rewrite GetDatasetState_instance'.
    destruct (lookupState e _ (datasetIDFromName dir) w)
      as [[[s [err'|]]| |] w'] eqn:Hrun; simpl; try discriminate.
    + destruct (lookupState_error _ _ _ _ _ _ _ Hrun) as [_ [->|[l ->]]];
        simpl; intros [= <- <-]; repeat split; eauto; discriminate.
    + destruct s; simpl; discriminate.
  - unfold Client.LookupVolume, bind.
    destruct (Client.QueryDatasetIDFromName e c dir w)
      as [[[id [qerr|]]| |] w1] eqn:Hq; simpl; try discriminate.
    + destruct (QueryDatasetIDFromName_error _ _ _ _ _ _ _ Hq) as [_ [->|[l ->]]];
        intros [= <- <-]; repeat split; eauto; discriminate.
    + rewrite GetDatasetState_instance.
      destruct (lookupState e _ id w1) as [[[s [err'|]]| |] w'] eqn:Hrun;
        simpl; try discriminate.
      * destruct (lookupState_error _ _ _ _ _ _ _ Hrun) as [_ [->|[l ->]]];
          simpl; intros [= <- <-]; repeat split; eauto; discriminate.
      * destruct s; simpl; discriminate.
Qed.

Lemma LookupVolume_errors_are_translated_witness :
  (fst (flockerClient.LookupVolume Edge.twice Scenario.client "dir" start)
   = Done ("", Some errVolumeDoesNotExist)
   /\ errVolumeDoesNotExist <> errStateNotFound)
  /\ (fst (Client.LookupVolume Scenario.unregistered Scenario.client' "dir" start)
      = Done ("", Some errConfigurationNotFound)
      /\ errConfigurationNotFound <> errStateNotFound).
Proof.
  assert (Hrun : fst (flockerClient.LookupVolume Edge.twice Scenario.client "dir" start)
                 = Done ("", Some errVolumeDoesNotExist))
    by (vm_compute; reflexivity).
  destruct (LookupVolume_errors_are_translated
              Edge.twice Scenario.client' Scenario.client "dir" ""
              errVolumeDoesNotExist start) as [Hf _].
  destruct (LookupVolume_errors_are_translated
              Scenario.unregistered Scenario.client' Scenario.client "dir" ""
              errConfigurationNotFound start) as [_ Hc].
  split; split; auto.
  - apply (Hf Hrun).
  - apply (Hc eq_refl).
Defined.

(** ** [CreateVolume] before the loop *)

(** X4: when the lookup of the primary fails (no node at the address of the
    client, or an error of the transport or the decoder), [CreateVolume]
    returns the empty path with that error and has made the GET of the node
    states only: no creation request is sent and nothing is waited for. *)
Theorem CreateVolume_unresolved_primary
        (e : env) (c : Client.Client) (c' : flockerClient.flockerClient)
        (dir : string) (fuel : nat) (w : world) (x : string) (err : error) :
  (fst (Client.LookupPrimaryUUID e c w) = Done (x, Some err) ->
   Client.CreateVolume e c dir fuel w
   = (Done ("", Some err), logged w (GET (Client.getURL c "state/nodes"))))
  /\ (fst (flockerClient.findPrimaryUUID e c' w) = Done (x, Some err) ->
      flockerClient.CreateVolume e c' dir fuel w
      = (Done ("", Some err), logged w (GET (flockerClient.getURL c' "state/nodes")))).
Proof.
  split; intros Hp.
  - rewrite LookupPrimaryUUID_run in Hp. simpl in Hp. injection Hp as Hp.
    rewrite CreateVolume_run, Hp. reflexivity.
  - rewrite findPrimaryUUID_run in Hp. simpl in Hp. injection Hp as Hp.
    rewrite CreateVolume_run', Hp. reflexivity.
Qed.

Lemma CreateVolume_unresolved_primary_witness :
  Client.CreateVolume Scenario.unlisted Scenario.client' "dir" 5 start
  = (Done ("", Some errStateNotFound),
     logged start (GET "http://127.0.0.1:8080/v1/state/nodes"))
  /\ flockerClient.CreateVolume Scenario.unlisted Scenario.client "dir" 5 start
     = (Done ("", Some errStateNotFound),
        logged start (GET "http://127.0.0.1:8080/v1/state/nodes")).
Proof.
  destruct (CreateVolume_unresolved_primary
              Scenario.unlisted Scenario.client' Scenario.client "dir" 5 start
              "" errStateNotFound) as [Hc Hf].
  split; [exact (Hc eq_refl)|exact (Hf eq_refl)].
Defined.

(** X5: when the creation POST does not get through, [CreateVolume] returns
    the error of the transport; when it is answered with a status of 300 or
    more other than 409, [CreateVolume] returns an error whose message ends
    with that status in decimal. In both cases the path is empty, the requests
    made are the GET of the nodes and the POST, and no state is polled. *)
Theorem CreateVolume_creation_refused
        (e : env) (c : Client.Client) (c' : flockerClient.flockerClient)
        (dir : string) (fuel : nat) (w : world) (primary primary' : string) :
  fst (Client.LookupPrimaryUUID e c w) = Done (primary, None) ->
  fst (flockerClient.findPrimaryUUID e c' w) = Done (primary', None) ->
  (forall err,
      transport e (S (next w)) = inl err ->
      Client.CreateVolume e c dir fuel w
      = (Done ("", Some (foreign err)),
         logged (logged w (GET (Client.getURL c "state/nodes")))
                (creation c primary dir))
      /\ flockerClient.CreateVolume e c' dir fuel w
         = (Done ("", Some (foreign err)),
            logged (logged w (GET (flockerClient.getURL c' "state/nodes")))
                   (creation' c' primary' dir)))
  /\ (forall resp,
         transport e (S (next w)) = inr resp ->
         300 <= StatusCode resp ->
         StatusCode resp <> StatusConflict ->
         Client.CreateVolume e c dir fuel w
         = (Done ("", Some (Errorf ("Expected: {1,2}xx creating the volume, got: "
                                    ++ sprint_d (StatusCode resp)))),
            logged (logged w (GET (Client.getURL c "state/nodes")))
                   (creation c primary dir))
         /\ flockerClient.CreateVolume e c' dir fuel w
            = (Done ("", Some (Errorf ("Expected: {1,2}xx creating the volume, got: "
                                       ++ sprint_d (StatusCode resp)))),
               logged (logged w (GET (flockerClient.getURL c' "state/nodes")))
                      (creation' c' primary' dir))).
Proof.
  intros Hp Hp'.
  rewrite LookupPrimaryUUID_run in Hp. rewrite findPrimaryUUID_run in Hp'.
  simpl in Hp, Hp'. injection Hp as Hp. injection Hp' as Hp'.
  rewrite CreateVolume_run, CreateVolume_run', Hp, Hp'. cbv zeta.
  split.
  - intros err ->. split; reflexivity.
  - intros resp -> Hs Hn.
    destruct (Z.eqb_spec (StatusCode resp) StatusConflict) as [|_]; [contradiction|].
    destruct (Z.geb_spec (StatusCode resp) 300) as [_|]; [|lia].
    split; reflexivity.
Qed.

Lemma CreateVolume_creation_refused_witness :
  fst (flockerClient.CreateVolume Edge.refused Scenario.client "dir" 5 start)
  = Done ("", Some (Errorf "Expected: {1,2}xx creating the volume, got: 500"))
  /\ fst (Client.CreateVolume Edge.unreachable Scenario.client' "dir" 5 start)
     = Done ("", Some (foreign (LibError "connection refused"))).
Proof.
  destruct (CreateVolume_creation_refused
              Edge.refused Scenario.client' Scenario.client "dir" 5 start
              "A-B-C-D" "A-B-C-D" eq_refl eq_refl) as [_ Hstatus].
  destruct (CreateVolume_creation_refused
              Edge.unreachable Scenario.client' Scenario.client "dir" 5 start
              "A-B-C-D" "A-B-C-D" eq_refl eq_refl) as [Herr _].
  split.
  - destruct (Hstatus {| StatusCode := 500; body := Scenario.noBody |} eq_refl) as [_ ->];
      [simpl; lia|discriminate|reflexivity].
  - destruct (Herr (LibError "connection refused") eq_refl) as [-> _]. reflexivity.
Defined.

(** ** Rounds of the loop *)

Lemma polled_step (w : world) (url : string) (n m : nat) :
  polled (waited (logged w (GET url))) url n m = polled w url (S n) (S m).
Proof.
  unfold polled, waited, logged; simpl. f_equal.
  - now rewrite <- app_assoc.
  - lia.
Qed.

Lemma polled_logged (w : world) (url : string) (n m : nat) :
  logged (polled w url n m) (GET url) = polled w url (S n) m.
Proof.
  unfold polled, logged; cbn [calls selects]. f_equal.
  rewrite <- app_assoc. f_equal. simpl. now rewrite repeat_cons.
Qed.

Lemma next_polled (w : world) (url : string) (n m : nat) :
  next (polled w url n m) = (next w + n)%nat.
Proof. unfold next, polled; simpl. now rewrite length_app, repeat_length. Qed.

Lemma waiting_shift (e : env) (id : string) (n0 s0 k : nat) :
  waiting e id n0 s0 (S k) -> waiting e id (S n0) (S s0) k.
Proof.
  intros [Hp Ht]. split.
  - intros i Hi. destruct (Hp (S i) ltac:(lia)) as (resp & states & H1 & H2 & H3).
    exists resp, states. repeat split; auto.
    replace (S n0 + i)%nat with (n0 + S i)%nat by lia. exact H1.
  - intros i Hi. replace (S s0 + i)%nat with (s0 + S i)%nat by lia.
    apply Ht. lia.
Qed.

Section Rounds.

Variables (e : env) (url id : string) (err : option error).

(** After [k] rounds without the dataset the loop is where it started, [k]
  polls and [k] waits later, with [k] iterations less to go. *)
Lemma waitLoop_rounds (k : nat) :
forall (fuel : nat) (w : world),
  waiting e id (next w) (selects w) k ->
  waitLoop e url id err (k + fuel) w
  = waitLoop e url id err fuel (polled w url k k).
Proof.
induction k as [|k IH]; intros fuel w Hw.
- unfold polled; simpl. rewrite app_nil_r, Nat.add_0_r. now destruct w.
- change (S k + fuel)%nat with (S (k + fuel)). rewrite waitLoop_step.
  destruct Hw as [Hp Ht].
  destruct (Hp 0%nat ltac:(lia)) as (resp & states & H1 & H2 & H3).
  rewrite Nat.add_0_r in H1.
  rewrite (lookupState_absent _ _ _ _ _ _ H1 H2 H3). simpl selects.
  pose proof (Ht 0%nat ltac:(lia)) as Htick. rewrite Nat.add_0_r in Htick.
  rewrite Htick, IH, polled_step; [reflexivity|].
  rewrite next_waited, next_logged. simpl selects.
  apply waiting_shift. split; assumption.
Qed.

(** A poll that finds the dataset ends the loop with its path. *)
Lemma waitLoop_found (fuel : nat) (w : world) (resp : Response)
    (before after : list datasetStatePayload) (d : datasetState) :
transport e (next w) = inr resp ->
decodeDatasetStates (body resp)
= inr (before ++ {| embedded := Some d |} :: after)%list ->
absent id before ->
ds_DatasetID d = id ->
waitLoop e url id err (S fuel) w = (Done (ds_Path d, None), logged w (GET url)).
Proof.
intros Ht Hd Hb Hid.
rewrite waitLoop_step, lookupState_run, Ht, Hd.
now rewrite (rangeDatasetStates_found before after d id _ Hb Hid).
Qed.

(** A poll that fails ends the loop with its error. *)
Lemma waitLoop_failed (fuel : nat) (w : world) (l : libError) :
(transport e (next w) = inl l
 \/ exists resp, transport e (next w) = inr resp
                 /\ decodeDatasetStates (body resp) = inl l) ->
waitLoop e url id err (S fuel) w = (Done ("", Some (foreign l)), logged w (GET url)).
Proof.
intros [Ht|(resp & Ht & Hd)]; rewrite waitLoop_step, lookupState_run, Ht;
  [|rewrite Hd]; reflexivity.
Qed.

End Rounds.

(** ** [CreateVolume] in the loop *)

Section Accepted.

Variables (e : env) (c : Client.Client) (c' : flockerClient.flockerClient).
Variables (dir : string) (w : world) (primary primary' : string) (resp : Response).

Hypothesis Hprimary : fst (Client.LookupPrimaryUUID e c w) = Done (primary, None).
Hypothesis Hprimary' : fst (flockerClient.findPrimaryUUID e c' w) = Done (primary', None).
Hypothesis Hcreated : transport e (S (next w)) = inr resp.
Hypothesis Hnot409 : StatusCode resp <> StatusConflict.
Hypothesis Hbelow300 : StatusCode resp < 300.

(** The worlds in which the loops start. *)
Let w2 : world :=
logged (logged w (GET (Client.getURL c "state/nodes"))) (creation c primary dir).
Let w2' : world :=
logged (logged w (GET (flockerClient.getURL c' "state/nodes")))
       (creation' c' primary' dir).

(** An accepted creation leads into the loop. *)
Lemma CreateVolume_accepted (fuel : nat) (p : configurationPayload) :
decodeConfiguration (body resp) = inr p ->
Client.CreateVolume e c dir fuel w
= waitLoop e (Client.getURL c "state/datasets") (DatasetID p) None fuel w2.
Proof.
intros Hd. pose proof Hprimary as Hp.
rewrite LookupPrimaryUUID_run in Hp. simpl in Hp. injection Hp as Hp.
rewrite CreateVolume_run, Hp, Hcreated, Hd. cbv zeta.
destruct (Z.eqb_spec (StatusCode resp) StatusConflict) as [|_]; [contradiction|].
destruct (Z.geb_spec (StatusCode resp) 300) as [|_]; [lia|reflexivity].
Qed.

Lemma CreateVolume_accepted' (fuel : nat) :
flockerClient.CreateVolume e c' dir fuel w
= waitLoop e (flockerClient.getURL c' "state/datasets") (datasetIDFromName dir)
           None fuel w2'.
Proof.
pose proof Hprimary' as Hp.
rewrite findPrimaryUUID_run in Hp. simpl in Hp. injection Hp as Hp.
rewrite CreateVolume_run', Hp, Hcreated. cbv zeta.
destruct (Z.eqb_spec (StatusCode resp) StatusConflict) as [|_]; [contradiction|].
destruct (Z.geb_spec (StatusCode resp) 300) as [|_]; [lia|reflexivity].
Qed.

Lemma loop_start : next w2 = S (S (next w)) /\ selects w2 = selects w.
Proof. unfold w2. now rewrite !next_logged. Qed.

Lemma loop_start' : next w2' = S (S (next w)) /\ selects w2' = selects w.
Proof. unfold w2'. now rewrite !next_logged. Qed.

End Accepted.

(** X6: after an accepted creation, when the dataset is missing from the
    first [k] state lists, the waits after them receive ticks, and the state
    list after that has a state of the dataset, [CreateVolume] returns the
    path of the first such state without error, after exactly [k + 1] polls
    and [k] waits. The dataset is the one of the identifier derived from the
    name in [flockerClient], and the one of the [dataset_id] of the creation
    response in [Client]. *)
Theorem CreateVolume_ready
        (e : env) (c : Client.Client) (c' : flockerClient.flockerClient)
        (dir : string) (fuel k : nat) (w : world) (primary primary' : string)
        (resp r : Response) (id : string)
        (before after : list datasetStatePayload) (d : datasetState) :
  fst (Client.LookupPrimaryUUID e c w) = Done (primary, None) ->
  fst (flockerClient.findPrimaryUUID e c' w) = Done (primary', None) ->
  transport e (S (next w)) = inr resp ->
  StatusCode resp <> StatusConflict ->
  StatusCode resp < 300 ->
  waiting e id (S (S (next w))) (selects w) k ->
  transport e (S (S (next w)) + k) = inr r ->
  decodeDatasetStates (body r)
  = inr (before ++ {| embedded := Some d |} :: after)%list ->
  absent id before ->
  ds_DatasetID d = id ->
  (k < fuel)%nat ->
  (id = datasetIDFromName dir ->
   flockerClient.CreateVolume e c' dir fuel w
   = (Done (ds_Path d, None),
      polled (logged (logged w (GET (flockerClient.getURL c' "state/nodes")))
                     (creation' c' primary' dir))
             (flockerClient.getURL c' "state/datasets") (S k) k))
  /\ (forall p,
         decodeConfiguration (body resp) = inr p ->
         DatasetID p = id ->
         Client.CreateVolume e c dir fuel w
         = (Done (ds_Path d, None),
            polled (logged (logged w (GET (Client.getURL c "state/nodes")))
                           (creation c primary dir))
                   (Client.getURL c "state/datasets") (S k) k)).
Proof.
  intros Hp Hp' Ht Hs1 Hs2 Hw Hr Hd Hb Hid Hfuel.
  replace fuel with (k + S (fuel - S k))%nat by lia.
  split.
  - intros ->.
    destruct (loop_start' c' dir w primary') as [Hn Hs].
    rewrite (CreateVolume_accepted' e c' dir w primary' resp Hp' Ht Hs1 Hs2).
    rewrite waitLoop_rounds by (rewrite Hn, Hs; exact Hw).
    rewrite (waitLoop_found _ _ _ _ _ _ r before after d), polled_logged; auto.
    now rewrite next_polled, Hn.
  - intros p Hdec <-.
    destruct (loop_start c dir w primary) as [Hn Hs].
    rewrite (CreateVolume_accepted e c dir w primary resp Hp Ht Hs1 Hs2 _ p Hdec).
    rewrite waitLoop_rounds by (rewrite Hn, Hs; exact Hw).
    rewrite (waitLoop_found _ _ _ _ _ _ r before after d), polled_logged; auto.
    now rewrite next_polled, Hn.
Qed.

Lemma CreateVolume_ready_witness :
  Client.CreateVolume Edge.ready Scenario.client' "dir" 5 start
  = (Done ("/flocker/1", None),
     polled (logged (logged start (GET "http://127.0.0.1:8080/v1/state/nodes"))
                    (creation Scenario.client' "A-B-C-D" "dir"))
            "http://127.0.0.1:8080/v1/state/datasets" 3 2).
Proof.
  assert (Hw : waiting Edge.ready "id-1" (S (S (next start))) (selects start) 2).
  { split; intros i Hi.
    - destruct i as [|[|i]]; [| |lia].
      + exists {| StatusCode := 200; body := Scenario.statesBody [] |}, [].
        repeat split. constructor.
      + exists {| StatusCode := 200;
                  body := Scenario.statesBody [Scenario.dataset "id-0" "/flocker/0"] |},
          [Scenario.dataset "id-0" "/flocker/0"].
        repeat split. repeat constructor.
        eexists; split; [reflexivity|discriminate].
    - destruct i as [|[|i]]; [reflexivity|reflexivity|lia]. }
  destruct (CreateVolume_ready
              Edge.ready Scenario.client' Scenario.client "dir" 5 2 start
              "A-B-C-D" "A-B-C-D"
              {| StatusCode := 200;
                 body := Scenario.configurationBody
                           (Scenario.configuration "id-1" "dir") |}
              {| StatusCode := 200;
                 body := Scenario.statesBody [Scenario.dataset "id-0" "/flocker/0";
                                              Scenario.dataset "id-1" "/flocker/1"] |}
              "id-1"
              [Scenario.dataset "id-0" "/flocker/0"] []
              {| ds_Path := "/flocker/1"; ds_DatasetID := "id-1";
                 ds_Primary := ""; ds_MaximumSize := "" |}
              eq_refl eq_refl eq_refl ltac:(discriminate) eq_refl Hw eq_refl eq_refl)
    as [_ Hc].
  - repeat constructor. eexists; split; [reflexivity|discriminate].
  - reflexivity.
  - lia.
  - exact (Hc (Scenario.configuration "id-1" "dir") eq_refl eq_refl).
Defined.

(** X7: after an accepted creation and [k] rounds without the dataset, a
    poll that fails in the transport or in the decoder ends [CreateVolume]:
    the result is the empty path with that error, after [k + 1] polls, and
    no further wait. *)
Theorem CreateVolume_poll_fails
        (e : env) (c : Client.Client) (c' : flockerClient.flockerClient)
        (dir : string) (fuel k : nat) (w : world) (primary primary' : string)
        (resp : Response) (p : configurationPayload) (l : libError) :
  fst (Client.LookupPrimaryUUID e c w) = Done (primary, None) ->
  fst (flockerClient.findPrimaryUUID e c' w) = Done (primary', None) ->
  transport e (S (next w)) = inr resp ->
  StatusCode resp <> StatusConflict ->
  StatusCode resp < 300 ->
  decodeConfiguration (body resp) = inr p ->
  waiting e (datasetIDFromName dir) (S (S (next w))) (selects w) k ->
  waiting e (DatasetID p) (S (S (next w))) (selects w) k ->
  (transport e (S (S (next w)) + k) = inl l
   \/ exists r, transport e (S (S (next w)) + k) = inr r
                /\ decodeDatasetStates (body r) = inl l) ->
  (k < fuel)%nat ->
  flockerClient.CreateVolume e c' dir fuel w
  = (Done ("", Some (foreign l)),
     polled (logged (logged w (GET (flockerClient.getURL c' "state/nodes")))
                    (creation' c' primary' dir))
            (flockerClient.getURL c' "state/datasets") (S k) k)
  /\ Client.CreateVolume e c dir fuel w
     = (Done ("", Some (foreign l)),
        polled (logged (logged w (GET (Client.getURL c "state/nodes")))
                       (creation c primary dir))
               (Client.getURL c "state/datasets") (S k) k).
Proof.
  intros Hp Hp' Ht Hs1 Hs2 Hdec Hw Hw' Hfail Hfuel.
  replace fuel with (k + S (fuel - S k))%nat by lia.
  destruct (loop_start' c' dir w primary') as [Hn' Hsel'].
  destruct (loop_start c dir w primary) as [Hn Hsel].
  rewrite (CreateVolume_accepted' e c' dir w primary' resp Hp' Ht Hs1 Hs2).
  rewrite (CreateVolume_accepted e c dir w primary resp Hp Ht Hs1 Hs2 _ p Hdec).
  rewrite !waitLoop_rounds by (rewrite ?Hn, ?Hsel, ?Hn', ?Hsel'; assumption).
  rewrite !(waitLoop_failed _ _ _ _ _ _ l), !polled_logged; auto;
    rewrite next_polled, ?Hn, ?Hn'; exact Hfail.
Qed.

Lemma CreateVolume_poll_fails_witness :
  fst (flockerClient.CreateVolume Edge.interrupted Scenario.client "dir" 5 start)
  = Done ("", Some (foreign (LibError "connection reset")))
  /\ fst (Client.CreateVolume Edge.interrupted Scenario.client' "dir" 5 start)
     = Done ("", Some (foreign (LibError "connection reset"))).
Proof.
  assert (Hw : forall id, id <> "id-0" ->
                 waiting Edge.interrupted id (S (S (next start))) (selects start) 2).
  { intros id Hid. split; intros i Hi.
    - destruct i as [|[|i]]; [| |lia].
      + exists {| StatusCode := 200; body := Scenario.statesBody [] |}, [].
        repeat split. constructor.
      + exists {| StatusCode := 200;
                  body := Scenario.statesBody [Scenario.dataset "id-0" "/flocker/0"] |},
          [Scenario.dataset "id-0" "/flocker/0"].
        repeat split. repeat constructor.
        eexists; split; [reflexivity|]. simpl. congruence.
    - destruct i as [|[|i]]; [reflexivity|reflexivity|lia]. }
  destruct (CreateVolume_poll_fails
              Edge.interrupted Scenario.client' Scenario.client "dir" 5 2 start
              "A-B-C-D" "A-B-C-D"
              {| StatusCode := 200;
                 body := Scenario.configurationBody
                           (Scenario.configuration "id-1" "dir") |}
              (Scenario.configuration "id-1" "dir")
              (LibError "connection reset")
              eq_refl eq_refl eq_refl ltac:(discriminate) eq_refl eq_refl)
    as [Hf Hc].
  - apply Hw. vm_compute. discriminate.
  - apply Hw. discriminate.
  - left. reflexivity.
  - lia.
  - rewrite Hf, Hc. split; reflexivity.
Defined.

(** ** The creation request and the dataset waited for *)

(** C4, as the code has it: once the primary is resolved, the second request
    of [CreateVolume] is a POST to the dataset-configuration endpoint.
    [flockerClient.CreateVolume] derives the identifier from the name and
    posts exactly the resolved primary, that identifier as dataset id, the
    configured maximum size and the name as [metadata.name].
    [Client.CreateVolume] posts the primary, the configured maximum size and
    the name, with an empty (omitted) dataset id, and takes the identifier to
    poll for from the response: when the creation is accepted and its response
    decodes to a configuration [p], the run skips every state list without a
    state of [DatasetID p], whatever other states it has, and returns the path
    of the first state of [DatasetID p] in the first list that has one. *)
Theorem CreateVolume_creation_payload
        (e : env) (c : Client.Client) (c' : flockerClient.flockerClient)
        (dir : string) (fuel : nat) (w : world) (primary primary' : string) :
  fst (Client.LookupPrimaryUUID e c w) = Done (primary, None) ->
  fst (flockerClient.findPrimaryUUID e c' w) = Done (primary', None) ->
  nth_error (calls (snd (flockerClient.CreateVolume e c' dir fuel w))) (S (next w))
  = Some {| Method := "POST";
            URL := flockerClient.getURL c' "configuration/datasets";
            Sent := Some (configurationBody
                            {| Primary := primary';
                               DatasetID := datasetIDFromName dir;
                               MaximumSize := flockerClient.maximumSize c';
                               Metadata := {| Name := dir |} |}) |}
  /\ nth_error (calls (snd (Client.CreateVolume e c dir fuel w))) (S (next w))
     = Some {| Method := "POST";
               URL := Client.getURL c "configuration/datasets";
               Sent := Some (configurationBody
                               {| Primary := primary;
                                  DatasetID := "";
                                  MaximumSize := Client.maximumSize c;
                                  Metadata := {| Name := dir |} |}) |}
  /\ (forall (resp r : Response) (p : configurationPayload) (k : nat)
             (before after : list datasetStatePayload) (d : datasetState),
         transport e (S (next w)) = inr resp ->
         StatusCode resp <> StatusConflict ->
         StatusCode resp < 300 ->
         decodeConfiguration (body resp) = inr p ->
         waiting e (DatasetID p) (S (S (next w))) (selects w) k ->
         transport e (S (S (next w)) + k) = inr r ->
         decodeDatasetStates (body r)
         = inr (before ++ {| embedded := Some d |} :: after)%list ->
         absent (DatasetID p) before ->
         ds_DatasetID d = DatasetID p ->
         (k < fuel)%nat ->
         Client.CreateVolume e c dir fuel w
         = (Done (ds_Path d, None),
            polled (logged (logged w (GET (Client.getURL c "state/nodes")))
                           (creation c primary dir))
                   (Client.getURL c "state/datasets") (S k) k)).
Proof.
  intros Hp Hp'. split; [|split].
  - rewrite findPrimaryUUID_run in Hp'. simpl in Hp'. injection Hp' as Hp'.
    destruct (CreateVolume_calls' e dir fuel w primary' c' Hp') as [l' Hl'].
    rewrite Hl'. unfold next. apply nth_error_second.
  - pose proof Hp as Hq.
    rewrite LookupPrimaryUUID_run in Hq. simpl in Hq. injection Hq as Hq.
    destruct (CreateVolume_calls e dir fuel w primary c Hq) as [l Hl].
    rewrite Hl. unfold next. apply nth_error_second.
  - intros resp r p k before after d Ht Hs1 Hs2 Hdec Hw Hr Hd Hb Hid Hfuel.
    replace fuel with (k + S (fuel - S k))%nat by lia.
    destruct (loop_start c dir w primary) as [Hn Hs].
    rewrite (CreateVolume_accepted e c dir w primary resp Hp Ht Hs1 Hs2 _ p Hdec).
    rewrite waitLoop_rounds by (rewrite Hn, Hs; exact Hw).
    rewrite (waitLoop_found _ _ _ _ _ _ r before after d), polled_logged; auto.
    now rewrite next_polled, Hn.
Qed.

(** In this run the service names the dataset "id-1"; the first two state
    lists are without it and the third has it second. *)
Lemma CreateVolume_creation_payload_witness :
  nth_error (calls (snd (flockerClient.CreateVolume
                           Edge.ready Scenario.client "dir" 5 start))) 1
  = Some (creation' Scenario.client "A-B-C-D" "dir")
  /\ nth_error (calls (snd (Client.CreateVolume
                              Edge.ready Scenario.client' "dir" 5 start))) 1
     = Some (creation Scenario.client' "A-B-C-D" "dir")
  /\ fst (Client.CreateVolume Edge.ready Scenario.client' "dir" 5 start)
     = Done ("/flocker/1", None).
Proof.
  destruct (CreateVolume_creation_payload
              Edge.ready Scenario.client' Scenario.client "dir" 5 start
              "A-B-C-D" "A-B-C-D" eq_refl eq_refl) as (Hf & Hc & Hpoll).
  split; [exact Hf|]. split; [exact Hc|].
  rewrite (Hpoll {| StatusCode := 200;
                    body := Scenario.configurationBody
                              (Scenario.configuration "id-1" "dir") |}
                 {| StatusCode := 200;
                    body := Scenario.statesBody
                              [Scenario.dataset "id-0" "/flocker/0";
                               Scenario.dataset "id-1" "/flocker/1"] |}
                 (Scenario.configuration "id-1" "dir") 2%nat
                 [Scenario.dataset "id-0" "/flocker/0"] []
                 {| ds_Path := "/flocker/1"; ds_DatasetID := "id-1";
                    ds_Primary := ""; ds_MaximumSize := "" |});
    try reflexivity.
  - discriminate.
  - split; intros i Hi.
    + destruct i as [|[|i]]; [| |lia].
      * exists {| StatusCode := 200; body := Scenario.statesBody [] |}, [].
        repeat split. constructor.
      * exists {| StatusCode := 200;
                  body := Scenario.statesBody [Scenario.dataset "id-0" "/flocker/0"] |},
          [Scenario.dataset "id-0" "/flocker/0"].
        repeat split. repeat constructor.
        eexists; split; [reflexivity|discriminate].
    + destruct i as [|[|i]]; [reflexivity|reflexivity|lia].
  - repeat constructor. eexists; split; [reflexivity|discriminate].
  - lia.
Defined.

(** ** What [CreateVolume] can return *)

Lemma rangeDatasetStates_first_found (l : list datasetStatePayload) (id : string)
      (w w' : world) (d : datasetState) :
  rangeDatasetStates l id w = (Done (Some d, None), w') ->
  exists before after,
    l = (before ++ {| embedded := Some d |} :: after)%list
    /\ absent id before
    /\ ds_DatasetID d = id.
Proof.
  induction l as [|[[d0|]] l IH]; simpl; try discriminate.
  destruct (String.eqb_spec (ds_DatasetID d0) id) as [Heq|Hne].
  - intros [= <- _]. exists [], l. repeat split; auto. constructor.
  - intros Hr. destruct (IH Hr) as (before & after & -> & Hb & Hid).
    exists ({| embedded := Some d0 |} :: before), after. repeat split; auto.
    constructor; [exists d0; auto|assumption].
Qed.

Lemma lookupState_listed (e : env) (url id : string) (w w' : world) (d : datasetState) :
  lookupState e url id w = (Done (Some d, None), w') ->
  exists resp before after,
    transport e (next w) = inr resp
    /\ decodeDatasetStates (body resp)
       = inr (before ++ {| embedded := Some d |} :: after)%list
    /\ absent id before
    /\ ds_DatasetID d = id.
Proof.
  rewrite lookupState_run.
  destruct (transport e (next w)) as [l|resp]; [discriminate|].
  destruct (decodeDatasetStates (body resp)) as [l|states] eqn:Hdec; [discriminate|].
  intros Hr. apply rangeDatasetStates_first_found in Hr.
  destruct Hr as (before & after & -> & Hb & Hid).
  exists resp, before, after. repeat split; auto.
Qed.

Section Results.

Variables (e : env) (url id : string) (err : option error).

(** A result of the loop without error is the empty path returned at the
  timeout, or the path of the first state of the dataset in the list that
  answered the last poll of the loop. *)
Lemma waitLoop_success (fuel : nat) :
forall (w : world) (path : string),
  fst (waitLoop e url id err fuel w) = Done (path, None) ->
  (err = None /\ path = "")
  \/ exists i resp before d after,
      (next w <= i)%nat
      /\ S i = next (snd (waitLoop e url id err fuel w))
      /\ transport e i = inr resp
      /\ decodeDatasetStates (body resp)
         = inr (before ++ {| embedded := Some d |} :: after)%list
      /\ absent id before
      /\ ds_DatasetID d = id
      /\ ds_Path d = path.
Proof.
induction fuel as [|fuel IH]; intros w path; [discriminate|].
rewrite waitLoop_step.
pose proof (lookupState_world e url id w) as Hw.
destruct (lookupState e url id w) as [[[s [err'|]]| |] w'] eqn:Hrun;
  simpl in Hw; subst w'; try discriminate.
- destruct err'; try discriminate.
  simpl selects. destruct (timers e (selects w)).
  + simpl. intros [= <- <-]. auto.
  + intros Hr. apply IH in Hr.
    destruct Hr as [Hr|(i & resp & before & d & after & Hi & Hr)]; [auto|].
    right. exists i, resp, before, d, after. split; [|exact Hr].
    rewrite next_waited, next_logged in Hi. lia.
- destruct s as [d|]; [|discriminate].
  simpl. intros [= <-]. right.
  destruct (lookupState_listed _ _ _ _ _ _ Hrun) as (resp & before & after & Hr).
  exists (next w), resp, before, d, after.
  split; [lia|]. split; [now rewrite next_logged|]. tauto.
Qed.

(** An error of the loop comes with the empty path; it is foreign, or it is
  [err], returned at the timeout. *)
Lemma waitLoop_error (fuel : nat) :
forall (w : world) (path : string) (x : error),
  fst (waitLoop e url id err fuel w) = Done (path, Some x) ->
  path = "" /\ (err = Some x \/ exists l, x = foreign l).
Proof.
induction fuel as [|fuel IH]; intros w path x; [discriminate|].
rewrite waitLoop_step.
destruct (lookupState e url id w) as [[[s [err'|]]| |] w'] eqn:Hrun;
  try discriminate.
- destruct (lookupState_error _ _ _ _ _ _ _ Hrun) as [_ [->|[l ->]]].
  + destruct (timers e (selects w')); [|apply IH].
    simpl. intros [= <- <-]. auto.
  + simpl. intros [= <- <-]. eauto.
- destruct s; discriminate.
Qed.


End Results.

Lemma primaryOf_error (e : env) (address : string) (w : world) (x : string) (err : error) :
  primaryOf e address w = (x, Some err) ->
  err = errStateNotFound \/ exists l, err = foreign l.
Proof.
  unfold primaryOf.
  destruct (transport e (next w)) as [l|resp]; [intros [= _ <-]; eauto|].
  destruct (decodeNodeStates (body resp)) as [l|states]; [intros [= _ <-]; eauto|].
  destruct (rangeNodeStates_first states address)
    as [(before & s & after & _ & _ & _ & ->)|(_ & ->)]; [discriminate|].
  intros [= _ <-]. auto.
Qed.

(** X8: a result of [CreateVolume] without error is either the empty path or
    the path of the first state, in list order, of the dataset the run waits
    for, in the state list that answered the last request of the run, which is
    a poll made after the creation. The dataset is the one of the identifier
    derived from the name in [flockerClient], and the one of the [dataset_id]
    of the creation response in [Client]. *)
Theorem CreateVolume_success_is_listed_path
        (e : env) (c : Client.Client) (c' : flockerClient.flockerClient)
        (dir : string) (fuel : nat) (w : world) (path : string) :
  (fst (flockerClient.CreateVolume e c' dir fuel w) = Done (path, None) ->
   path = ""
   \/ exists i resp before d after,
       (S (next w) < i)%nat
       /\ S i = next (snd (flockerClient.CreateVolume e c' dir fuel w))
       /\ transport e i = inr resp
       /\ decodeDatasetStates (body resp)
          = inr (before ++ {| embedded := Some d |} :: after)%list
       /\ absent (datasetIDFromName dir) before
       /\ ds_DatasetID d = datasetIDFromName dir
       /\ ds_Path d = path)
  /\ (fst (Client.CreateVolume e c dir fuel w) = Done (path, None) ->
      path = ""
      \/ exists created p i resp before d after,
          transport e (S (next w)) = inr created
          /\ decodeConfiguration (body created) = inr p
          /\ (S (next w) < i)%nat
          /\ S i = next (snd (Client.CreateVolume e c dir fuel w))
          /\ transport e i = inr resp
          /\ decodeDatasetStates (body resp)
             = inr (before ++ {| embedded := Some d |} :: after)%list
          /\ absent (DatasetID p) before
          /\ ds_DatasetID d = DatasetID p
          /\ ds_Path d = path).
Proof.
  split.
  - rewrite CreateVolume_run'. cbv zeta.
    destruct (primaryOf e (flockerClient.host c') w) as [primary [err|]]; [discriminate|].
    destruct (transport e (S (next w))) as [l|created]; [discriminate|].
    destruct (StatusCode created =? StatusConflict); [discriminate|].
    destruct (StatusCode created >=? 300); [discriminate|].
    intros Hr. apply waitLoop_success in Hr.
    destruct Hr as [[_ ->]|(i & resp & before & d & after & Hi & Hr)]; [auto|].
    right. exists i, resp, before, d, after. split; [|exact Hr].
    rewrite !next_logged in Hi. lia.
  - rewrite CreateVolume_run. cbv zeta.
    destruct (primaryOf e (Client.clientIP c) w) as [primary [err|]]; [discriminate|].
    destruct (transport e (S (next w))) as [l|created]; [discriminate|].
    destruct (StatusCode created =? StatusConflict); [discriminate|].
    destruct (StatusCode created >=? 300); [discriminate|].
    destruct (decodeConfiguration (body created)) as [l|p] eqn:Hdec; [discriminate|].
    intros Hr. apply waitLoop_success in Hr.
    destruct Hr as [[_ ->]|(i & resp & before & d & after & Hi & Hr)]; [auto|].
    right. exists created, p, i, resp, before, d, after.
    split; [reflexivity|]. split; [exact Hdec|]. split; [|exact Hr].
    rewrite !next_logged in Hi. lia.
Qed.

(** Scenario D: the path "P" is in the list that answered the fifth and last
    request of the run. *)
Lemma CreateVolume_success_is_listed_path_witness :
  fst (flockerClient.CreateVolume Scenario.happy Scenario.client "dir" 3 start)
  = Done ("P", None)
  /\ next (snd (flockerClient.CreateVolume Scenario.happy Scenario.client "dir" 3 start))
     = 5%nat
  /\ ("P" = ""
      \/ exists i resp before d after,
          (S (next start) < i)%nat
          /\ S i = next (snd (flockerClient.CreateVolume
                                Scenario.happy Scenario.client "dir" 3 start))
          /\ transport Scenario.happy i = inr resp
          /\ decodeDatasetStates (body resp)
             = inr (before ++ {| embedded := Some d |} :: after)%list
          /\ absent (datasetIDFromName "dir") before
          /\ ds_DatasetID d = datasetIDFromName "dir"
          /\ ds_Path d = "P").
Proof.
  assert (Hrun : fst (flockerClient.CreateVolume
                        Scenario.happy Scenario.client "dir" 3 start)
                 = Done ("P", None)) by (vm_compute; reflexivity).
  split; [exact Hrun|]. split; [vm_compute; reflexivity|].
  exact (proj1 (CreateVolume_success_is_listed_path
                  Scenario.happy Scenario.client' Scenario.client "dir" 3 start "P")
               Hrun).
Defined.

(** X9: an error of [CreateVolume] comes with the empty path and is one of:
    [errStateNotFound], from the lookup of the primary;
    [errVolumeAlreadyExists]; the error that carries the status of a refused
    creation; an error of the transport or of the decoder. *)
Theorem CreateVolume_errors
        (e : env) (c : Client.Client) (c' : flockerClient.flockerClient)
        (dir : string) (fuel : nat) (w : world) (path : string) (x : error) :
  (fst (flockerClient.CreateVolume e c' dir fuel w) = Done (path, Some x)
   \/ fst (Client.CreateVolume e c dir fuel w) = Done (path, Some x)) ->
  path = ""
  /\ (x = errStateNotFound
      \/ x = errVolumeAlreadyExists
      \/ (exists status, 300 <= status /\ x = creationError status)
      \/ exists l, x = foreign l).
Proof.
  intros [Hr|Hr].
  - rewrite CreateVolume_run' in Hr. cbv zeta in Hr.
    destruct (primaryOf e (flockerClient.host c') w) as [primary [err|]] eqn:Hp.
    + injection Hr as <- <-. split; [reflexivity|].
      destruct (primaryOf_error _ _ _ _ _ Hp) as [->|[l ->]]; eauto.
    + destruct (transport e (S (next w))) as [l|created].
      { injection Hr as <- <-. eauto 6. }
      destruct (StatusCode created =? StatusConflict).
      { injection Hr as <- <-. auto. }
      destruct (Z.geb_spec (StatusCode created) 300).
      { injection Hr as <- <-. split; [reflexivity|]. right; right; left.
        exists (StatusCode created). split; [lia|reflexivity]. }
      apply waitLoop_error in Hr. destruct Hr as [-> [Hr|[l ->]]];
        [discriminate|eauto 6].
  - rewrite CreateVolume_run in Hr. cbv zeta in Hr.
    destruct (primaryOf e (Client.clientIP c) w) as [primary [err|]] eqn:Hp.
    + injection Hr as <- <-. split; [reflexivity|].
      destruct (primaryOf_error _ _ _ _ _ Hp) as [->|[l ->]]; eauto.
    + destruct (transport e (S (next w))) as [l|created].
      { injection Hr as <- <-. eauto 6. }
      destruct (StatusCode created =? StatusConflict).
      { injection Hr as <- <-. auto. }
      destruct (Z.geb_spec (StatusCode created) 300).
      { injection Hr as <- <-. split; [reflexivity|]. right; right; left.
        exists (StatusCode created). split; [lia|reflexivity]. }
      destruct (decodeConfiguration (body created)) as [l|p].
      { injection Hr as <- <-. eauto 6. }
      apply waitLoop_error in Hr. destruct Hr as [-> [Hr|[l ->]]];
        [discriminate|eauto 6].
Qed.

Lemma CreateVolume_errors_witness :
  fst (flockerClient.CreateVolume Edge.refused Scenario.client "dir" 5 start)
  = Done ("", Some (creationError 500))
  /\ (creationError 500 = errStateNotFound
      \/ creationError 500 = errVolumeAlreadyExists
      \/ (exists status, 300 <= status /\ creationError 500 = creationError status)
      \/ exists l, creationError 500 = foreign l).
Proof.
  split; [reflexivity|].
  exact (proj2 (CreateVolume_errors
                  Edge.refused Scenario.client' Scenario.client "dir" 5 start
                  "" (creationError 500) (or_introl eq_refl))).
Defined.

(** ** The requests of [CreateVolume] *)

Lemma added_logged1 (w : world) (r : Request) : added w (logged w r) = [r].
Proof. now apply added_of. Qed.



(** ** The layout of the identifier *)

Lemma sixteen (u : list Z) :
  List.length u = 16%nat ->
  exists b0 b1 b2 b3 b4 b5 b6 b7 b8 b9 b10 b11 b12 b13 b14 b15,
    u = [b0; b1; b2; b3; b4; b5; b6; b7; b8; b9; b10; b11; b12; b13; b14; b15].
Proof.
  intros Hu.
  do 16 (destruct u as [|? u]; [discriminate|]).
  destruct u; [|discriminate]. repeat eexists.
Qed.

(** The high half of byte 6 is the version, 4. *)
Lemma version_nibble (b : Z) : Z.lor (Z.land b 0x0f) 64 / 16 = 4.
Proof.
  change 0x0f with (Z.ones 4). rewrite Z.land_ones by lia.
  assert (Hin : In (b mod 2 ^ 4) (map Z.of_nat (seq 0 16))).
  { apply in_map_iff. exists (Z.to_nat (b mod 2 ^ 4)). split.
    - apply Z2Nat.id. apply Z.mod_pos_bound. lia.
    - apply in_seq. pose proof (Z.mod_pos_bound b (2 ^ 4) ltac:(lia)). lia. }
  assert (Hall : forallb (fun a => Z.lor a 64 / 16 =? 4) (map Z.of_nat (seq 0 16)) = true)
    by (vm_compute; reflexivity).
  rewrite forallb_forall in Hall. apply Z.eqb_eq. now apply Hall.
Qed.

(** The high half of byte 8 has the variant bits 10. *)
Lemma variant_nibble (b : Z) : 8 <= Z.lor (Z.land b 0x3f) 0x80 / 16 <= 11.
Proof.
  change 0x3f with (Z.ones 6). rewrite Z.land_ones by lia.
  assert (Hin : In (b mod 2 ^ 6) (map Z.of_nat (seq 0 64))).
  { apply in_map_iff. exists (Z.to_nat (b mod 2 ^ 6)). split.
    - apply Z2Nat.id. apply Z.mod_pos_bound. lia.
    - apply in_seq. pose proof (Z.mod_pos_bound b (2 ^ 6) ltac:(lia)). lia. }
  assert (Hall : forallb (fun a => (8 <=? Z.lor a 0x80 / 16) && (Z.lor a 0x80 / 16 <=? 11))
                         (map Z.of_nat (seq 0 64)) = true)
    by (vm_compute; reflexivity).
  rewrite forallb_forall in Hall. specialize (Hall _ Hin).
  apply andb_prop in Hall as [H1 H2]. lia.
Qed.

(** X11: for every name, the identifier has the canonical layout of a UUID:
    36 characters, with dashes at the positions 8, 13, 18 and 23, the version
    digit 4 at the position 14, and a variant digit 8, 9, a or b at the
    position 19. *)
Theorem datasetIDFromName_layout (v : string) :
  String.length (datasetIDFromName v) = 36%nat
  /\ String.get 8 (datasetIDFromName v) = Some "-"%char
  /\ String.get 13 (datasetIDFromName v) = Some "-"%char
  /\ String.get 18 (datasetIDFromName v) = Some "-"%char
  /\ String.get 23 (datasetIDFromName v) = Some "-"%char
  /\ String.get 14 (datasetIDFromName v) = Some "4"%char
  /\ (String.get 19 (datasetIDFromName v) = Some "8"%char
      \/ String.get 19 (datasetIDFromName v) = Some "9"%char
      \/ String.get 19 (datasetIDFromName v) = Some "a"%char
      \/ String.get 19 (datasetIDFromName v) = Some "b"%char).
Proof.
  split; [apply datasetIDFromName_length|].
  unfold datasetIDFromName, uuid.NewHash.
  set (u0 := uuid.copy _ _).
  assert (Hu : List.length u0 = 16%nat)
    by (unfold u0; rewrite copy_length; apply repeat_length).
  clearbody u0.
  destruct (sixteen u0 Hu)
    as (b0 & b1 & b2 & b3 & b4 & b5 & b6 & b7 & b8 & b9 & b10 & b11 & b12
        & b13 & b14 & b15 & ->).
  change (uuid.uint8 (Z.shiftl (Z.land 4 0xf) 4)) with 64.
  cbv beta iota zeta delta
      [uuid.assign nth uuid.String_ List.length Nat.eqb uuid.slice Nat.sub
       skipn firstn uuid.hex String.append String.get].
  rewrite version_nibble.
  repeat (split; [reflexivity|]).
  pose proof (variant_nibble b8) as Hv.
  set (q := Z.lor (Z.land b8 0x3f) 0x80 / 16) in *.
  assert (Hq : q = 8 \/ q = 9 \/ q = 10 \/ q = 11) by lia.
  destruct Hq as [-> |[-> |[-> | ->]]]; auto.
Qed.

(** ** Operations on the same volume *)

(** X12: in [flockerClient] the operations on a name agree on the dataset.
    When the service lists a state under the dataset id that
    [CreateVolume dir] sent in its creation request, [LookupVolume dir]
    returns the path of the first such state with one GET, and
    [UpdateDatasetPrimary dir] posts to the configuration of that same
    dataset id. *)
Theorem LookupVolume_finds_created_dataset
        (e e2 : env) (c : flockerClient.flockerClient) (dir : string) (fuel : nat)
        (w w2 : world) (primary u : string) (p : configurationPayload)
        (resp : Response) (before after : list datasetStatePayload)
        (d : datasetState) :
  fst (flockerClient.findPrimaryUUID e c w) = Done (primary, None) ->
  nth_error (calls (snd (flockerClient.CreateVolume e c dir fuel w))) (S (next w))
  = Some (POST u (configurationBody p)) ->
  transport e2 (next w2) = inr resp ->
  decodeDatasetStates (body resp)
  = inr (before ++ {| embedded := Some d |} :: after)%list ->
  absent (DatasetID p) before ->
  ds_DatasetID d = DatasetID p ->
  flockerClient.LookupVolume e2 c dir w2
  = (Done (ds_Path d, None),
     logged w2 (GET (flockerClient.getURL c "state/datasets")))
  /\ (forall (e3 : env) (w3 : world) (newPrimary : string),
         added w3 (snd (flockerClient.UpdateDatasetPrimary e3 c dir newPrimary w3))
         = [POST (flockerClient.getURL c ("configuration/datasets/" ++ DatasetID p))
                 (configurationBody
                    {| Primary := newPrimary; DatasetID := "";
                       MaximumSize := ""; Metadata := {| Name := "" |} |})]).
Proof.
  intros Hp Hnth Ht Hd Hb Hid.
  rewrite findPrimaryUUID_run in Hp. simpl in Hp. injection Hp as Hp.
  destruct (CreateVolume_calls' e dir fuel w primary c Hp) as [l Hl].
  rewrite Hl in Hnth. unfold next in Hnth. rewrite nth_error_second in Hnth.
  injection Hnth as _ <-. cbn [DatasetID] in *.
  split.
  - unfold flockerClient.LookupVolume, bind.
    rewrite GetDatasetState_instance', lookupState_run, Ht, Hd.
    now rewrite (rangeDatasetStates_found before after d _ _ Hb Hid).
  - intros e3 w3 newPrimary.
    unfold flockerClient.UpdateDatasetPrimary, bind. rewrite post_run.
    destruct (transport e3 (next w3)) as [err|r]; [apply added_logged1|].
    destruct ((StatusCode r <? 200) || (StatusCode r >=? 300)); apply added_logged1.
Qed.

Lemma LookupVolume_finds_created_dataset_witness :
  fst (flockerClient.LookupVolume Scenario.materialized Scenario.client "dir" start)
  = Done ("awesome-path", None).
Proof.
  destruct (LookupVolume_finds_created_dataset
              Scenario.happy Scenario.materialized Scenario.client "dir" 3
              start start "A-B-C-D" "http://127.0.0.1:8080/v1/configuration/datasets"
              {| Primary := "A-B-C-D";
                 DatasetID := "7c78121e-2056-48e9-9c8c-f6ee23187e22";
                 MaximumSize := "107374182400";
                 Metadata := {| Name := "dir" |} |}
              {| StatusCode := 200;
                 body := Scenario.statesBody
                           [Scenario.dataset "1-2-3" "not-this-one";
                            Scenario.dataset "7c78121e-2056-48e9-9c8c-f6ee23187e22"
                                             "awesome-path"] |}
              [Scenario.dataset "1-2-3" "not-this-one"] []
              {| ds_Path := "awesome-path";
                 ds_DatasetID := "7c78121e-2056-48e9-9c8c-f6ee23187e22";
                 ds_Primary := ""; ds_MaximumSize := "" |}
              eq_refl) as [Hrun _].
  - vm_compute. reflexivity.
  - vm_compute. reflexivity.
  - reflexivity.
  - repeat constructor. eexists; split; [reflexivity|discriminate].
  - reflexivity.
  - rewrite Hrun. reflexivity.
Defined.

(** ** [Client.LookupVolume] by name *)

Lemma rangeConfigurations_found (before after : list configurationPayload)
      (r : configurationPayload) (name : string) :
  (forall q, In q before -> Name (Metadata q) <> name) ->
  Name (Metadata r) = name ->
  rangeConfigurations (before ++ r :: after) name = (DatasetID r, None).
Proof.
  intros Hb Hr. induction before as [|q before IH]; simpl.
  - now rewrite Hr, String.eqb_refl.
  - destruct (String.eqb_spec (Name (Metadata q)) name) as [Heq|_].
    + exfalso. apply (Hb q); [now left|exact Heq].
    + apply IH. intros q' Hq'. apply Hb. now right.
Qed.

Lemma rangeConfigurations_none (l : list configurationPayload) (name : string) :
  (forall q, In q l -> Name (Metadata q) <> name) ->
  rangeConfigurations l name = ("", Some errConfigurationNotFound).
Proof.
  intros Hl. induction l as [|q l IH]; simpl; [reflexivity|].
  destruct (String.eqb_spec (Name (Metadata q)) name) as [Heq|_].
  - exfalso. apply (Hl q); [now left|exact Heq].
  - apply IH. intros q' Hq'. apply Hl. now right.
Qed.

(** X13: [Client.LookupVolume] first asks for the configurations. When none
    has the name, it returns [errConfigurationNotFound] and makes no request
    for the states. Otherwise it looks the states up under the dataset id of
    the first configuration with the name, and returns the path of the first
    state with that id. *)
Theorem LookupVolume_by_name
        (e : env) (c : Client.Client) (dir : string) (w : world)
        (resp : Response) (configurations : list configurationPayload) :
  transport e (next w) = inr resp ->
  decodeConfigurations (body resp) = inr configurations ->
  ((forall q, In q configurations -> Name (Metadata q) <> dir) ->
   Client.LookupVolume e c dir w
   = (Done ("", Some errConfigurationNotFound),
      logged w (GET (Client.getURL c "configuration/datasets"))))
  /\ (forall cb r ca resp' before d after,
         configurations = (cb ++ r :: ca)%list ->
         (forall q, In q cb -> Name (Metadata q) <> dir) ->
         Name (Metadata r) = dir ->
         transport e (S (next w)) = inr resp' ->
         decodeDatasetStates (body resp')
         = inr (before ++ {| embedded := Some d |} :: after)%list ->
         absent (DatasetID r) before ->
         ds_DatasetID d = DatasetID r ->
         Client.LookupVolume e c dir w
         = (Done (ds_Path d, None),
            logged (logged w (GET (Client.getURL c "configuration/datasets")))
                   (GET (Client.getURL c "state/datasets")))).
Proof.
  intros Ht Hd. split.
  - intros Hnone.
    unfold Client.LookupVolume, Client.QueryDatasetIDFromName, bind.
    rewrite get_run, Ht, Hd. unfold ret.
    now rewrite (rangeConfigurations_none _ _ Hnone).
  - intros cb r ca resp' before d after -> Hcb Hr Ht' Hd' Hb Hid.
    unfold Client.LookupVolume, Client.QueryDatasetIDFromName, bind.
    rewrite get_run, Ht, Hd. unfold ret.
    rewrite (rangeConfigurations_found _ _ _ _ Hcb Hr).
    rewrite GetDatasetState_instance, lookupState_run, next_logged, Ht', Hd'.
    now rewrite (rangeDatasetStates_found before after d _ _ Hb Hid).
Qed.

Lemma LookupVolume_by_name_witness :
  fst (Client.LookupVolume Edge.known Scenario.client' "dir" start)
  = Done ("/flocker/1", None)
  /\ Client.LookupVolume Edge.known Scenario.client' "absent" start
     = (Done ("", Some errConfigurationNotFound),
        logged start (GET "http://127.0.0.1:8080/v1/configuration/datasets")).
Proof.
  destruct (LookupVolume_by_name
              Edge.known Scenario.client' "dir" start
              {| StatusCode := 200;
                 body := Scenario.configurationsBody
                           [Scenario.configuration "id-0" "other";
                            Scenario.configuration "id-1" "dir"] |}
              [Scenario.configuration "id-0" "other";
               Scenario.configuration "id-1" "dir"] eq_refl eq_refl) as [_ Hfound].
  destruct (LookupVolume_by_name
              Edge.known Scenario.client' "absent" start
              {| StatusCode := 200;
                 body := Scenario.configurationsBody
                           [Scenario.configuration "id-0" "other";
                            Scenario.configuration "id-1" "dir"] |}
              [Scenario.configuration "id-0" "other";
               Scenario.configuration "id-1" "dir"] eq_refl eq_refl) as [Hnone _].
  split.
  - rewrite (Hfound [Scenario.configuration "id-0" "other"]
                    (Scenario.configuration "id-1" "dir") []
                    {| StatusCode := 200;
                       body := Scenario.statesBody
                                 [Scenario.dataset "id-1" "/flocker/1"] |}
                    []
                    {| ds_Path := "/flocker/1"; ds_DatasetID := "id-1";
                       ds_Primary := ""; ds_MaximumSize := "" |}
                    [] eq_refl); try reflexivity.
    + intros q [<-|[]]. discriminate.
    + constructor.
  - apply Hnone. intros q [<-|[<-|[]]]; discriminate.
Defined.
